(** * FlagScale runner core: a shallow embedding and its verified properties

    The development embeds, function by function,

    - [flagscale/cli.py]: [get_action];
    - [flagscale/runner/backend/backend_native_compress.py]:
      [_get_args_llmcompressor], [_update_config_compress] and the class
      [NativeCompressBackend] ([__init__], [_prepare],
      [generate_run_script], [generate_stop_script]);
    - the helpers of [flagscale/runner/utils.py] that the backend imports
      ([resolve_path], [setup_exp_dir], [setup_logging_dirs],
      [parse_hostfile]); their code is not part of the sources at hand, so
      they are modelled from the specification and from the unit tests in
      [tests/unit_tests/runner/test_path_utils.py].

    Python strings are [string], Python [int] is [Z], [None]-able values are
    [option], exceptions are the type [exn], and code that touches the
    configuration object, the file system or the logger runs in a small
    state-and-exception monad over [World]. *)

From Stdlib Require Import String Ascii List ZArith Lia Bool DecimalString.
From Stdlib Require DecimalPos DecimalZ.
From stdpp Require Import gmap strings.
Import ListNotations.

Set Default Proof Using "Type".

(* ===================================================================== *)
(** * Part I: the embedding                                               *)
(* ===================================================================== *)

(** ** Python values and exceptions *)

Module Py.

(** The two characters that cannot be typed inside a literal. *)
Definition nl : string := String (ascii_of_nat 10) EmptyString.
Definition dq : string := String (ascii_of_nat 34) EmptyString.

(** [str(n)] for a Python [int]. *)
Definition str_of_int (z : Z) : string := NilZero.string_of_int (Z.to_int z).

(** [str(x)] for a value that may be [None] (as in an f-string). *)
Definition str_of_opt (o : option string) : string :=
  match o with
  | Some s => s
  | None => "None"
  end.

(** [s.startswith(p)], [s.endswith(p)] and [sub in s]. *)
Fixpoint startswith (s p : string) {struct p} : bool :=
  match p with
  | EmptyString => true
  | String b p' =>
      match s with
      | EmptyString => false
      | String a s' => Ascii.eqb a b && startswith s' p'
      end
  end.

Fixpoint endswith_char (s : string) (c : ascii) : bool :=
  match s with
  | EmptyString => false
  | String a EmptyString => Ascii.eqb a c
  | String _ r => endswith_char r c
  end.

Definition contains (s sub : string) : bool :=
  match String.index 0 sub s with
  | Some _ => true
  | None => false
  end.

(** Truthiness of a string: [bool(s)]. *)
Definition truthy (s : string) : bool :=
  match s with
  | EmptyString => false
  | _ => true
  end.

(** [sep.join(parts)]. *)
Definition str_join (sep : string) (parts : list string) : string :=
  String.concat sep parts.

(** [s.split(sep)] for a one-character separator. *)
Fixpoint split_on (sep : ascii) (s : string) : list string :=
  match s with
  | EmptyString => [EmptyString]
  | String c r =>
      if Ascii.eqb c sep then EmptyString :: split_on sep r
      else match split_on sep r with
           | h :: t => String c h :: t
           | [] => [String c EmptyString]
           end
  end.

(** [s.lstrip()] on blanks, tabs, carriage returns and line feeds. *)
Definition is_space (c : ascii) : bool :=
  Ascii.eqb c " " || Ascii.eqb c (ascii_of_nat 9)
  || Ascii.eqb c (ascii_of_nat 10) || Ascii.eqb c (ascii_of_nat 13).

Fixpoint lstrip (s : string) : string :=
  match s with
  | String c r => if is_space c then lstrip r else s
  | EmptyString => EmptyString
  end.

(** The exceptions the embedded code raises. [Exit] is [typer.Exit]
    (that is, [click.exceptions.Exit]); its only datum is the exit code. *)
Inductive exn : Type :=
| Exit (exit_code : Z)
| AssertionError (msg : string)
| FileNotFoundError (msg : string)
| TypeError (msg : string).

(** What an exception object carries, rendered as text: the exit code of
    an [Exit], the message of the others. *)
Definition exn_payload (e : exn) : string :=
  match e with
  | Exit c => str_of_int c
  | AssertionError m => m
  | FileNotFoundError m => m
  | TypeError m => m
  end.

Definition is_typed_error (e : exn) : bool :=
  match e with
  | Exit _ => false
  | _ => true
  end.

End Py.

(** ** [os.path] on POSIX *)

Module PosixPath.
Import Py.

Definition isabs (p : string) : bool := startswith p "/".

(** One step of [os.path.join]: an absolute component resets the path,
    otherwise it is appended with exactly one separator. *)
Definition join2 (path b : string) : string :=
  if startswith b "/" then b
  else if negb (truthy path) || endswith_char path "/" then path +:+ b
  else path +:+ "/" +:+ b.

(** [os.path.join(a, *p)]. *)
Definition join (a : string) (p : list string) : string :=
  fold_left join2 p a.

(** [path.split('/')]. *)
Definition split_slash (s : string) : list string := split_on "/" s.

(** The loop body of [os.path.normpath]; [new_comps] is kept reversed, so
    that its head is Python's [new_comps[-1]]. *)
Definition norm_step (initial_slashes : nat) (rev_comps : list string)
    (comp : string) : list string :=
  if String.eqb comp EmptyString || String.eqb comp "." then rev_comps
  else if negb (String.eqb comp "..")
          || (Nat.eqb initial_slashes 0 && match rev_comps with [] => true | _ => false end)
          || match rev_comps with
             | last :: _ => String.eqb last ".."
             | [] => false
             end
       then comp :: rev_comps
       else match rev_comps with
            | _ :: rest => rest
            | [] => []
            end.

Definition initial_slashes (path : string) : nat :=
  if startswith path "/" then
    if startswith path "//" && negb (startswith path "///") then 2 else 1
  else 0.

(** [os.path.normpath(path)]. *)
Definition normpath (path : string) : string :=
  if negb (truthy path) then "."
  else
    let n := initial_slashes path in
    let comps := rev (fold_left (norm_step n) (split_slash path) []) in
    let joined := str_join "/" comps in
    let path' := match n with
                 | 0 => joined
                 | 1 => "/" +:+ joined
                 | _ => "//" +:+ joined
                 end in
    if truthy path' then path' else ".".

End PosixPath.

(** ** [flagscale/cli.py] *)

Module Cli.
Import Py.

(** The outcome of a command-line helper: the lines echoed to standard
    error ([typer.echo(..., err=True)]) and either the exception raised or
    the value returned. *)
Record outcome (A : Type) : Type := Outcome {
  echoed : list string;
  result : exn + A;
}.
Arguments Outcome {A} _ _.
Arguments echoed {A} _.
Arguments result {A} _.

Definition flags (stop dryrun test query tune : bool) : list (string * bool) :=
  [ ("stop", stop);
    ("dryrun", dryrun);
    ("test", test);
    ("query", query);
    ("auto_tune", tune) ].

(** [[name for name, value in flags if value]] *)
Definition set_flags (fl : list (string * bool)) : list string :=
  List.map fst (List.filter snd fl).

Definition exclusive_msg (set : list string) : string :=
  "Error: Flags are mutually exclusive: --" +:+ str_join ", --" set.

Definition get_action (stop dryrun test query tune : bool) : outcome string :=
  let set := set_flags (flags stop dryrun test query tune) in
  if (1 <? length set)%nat then
    Outcome [exclusive_msg set] (inl (Exit 1))
  else
    match set with
    | first :: _ => Outcome [] (inr first)
    | [] => Outcome [] (inr "run")
    end.

(** How many of the flags are set. *)
Definition count_set (bs : list bool) : nat := length (List.filter id bs).

End Cli.

(** ** The configuration tree

    The fields of the OmegaConf tree that the embedded code reads or writes.
    A key read with [.get(key, default)] or tested for presence is an
    [option]; [None] stands for a key that is absent or null. *)

Module Conf.

Record Task : Type := {
  type : option string;             (* experiment.task.type *)
  entrypoint : string;              (* experiment.task.entrypoint *)
}.

Record Runner : Type := {
  hostfile : option string;         (* experiment.runner.hostfile *)
  no_shared_fs : option bool;       (* experiment.runner.no_shared_fs *)
}.

Record Cmds : Type := {
  before_start : option string;     (* experiment.cmds.before_start *)
  after_stop : option string;       (* experiment.cmds.after_stop *)
}.

Record Experiment : Type := {
  exp_dir : string;
  task : Task;
  runner : Runner;
  cmds : option Cmds;
  envs : option (list (string * string));
}.

Record Logging : Type := {
  log_dir : option string;
  scripts_dir : option string;
  pids_dir : option string;
  tensorboard_dir : option string;
  wandb_save_dir : option string;
}.

Record System : Type := {
  save_dir : string;
  logging : Logging;
}.

(** [config.experiment] and [config.compress.system]. *)
Record Config : Type := {
  experiment : Experiment;
  compress_system : System;
}.

Definition set_logging (c : Config) (l : Logging) : Config :=
  {| experiment := experiment c;
     compress_system := {| save_dir := save_dir (compress_system c);
                           logging := l |} |}.

End Conf.

(** ** The world: file system, configuration object, logger *)

Module Sys.
Import Py PosixPath.

Record File : Type := {
  content : string;
  mode : Z;
}.

Record FS : Type := {
  dirs : gset string;
  files : gmap string File;
}.

(** [os.path.exists(p)]. *)
Definition path_exists (fs : FS) (p : string) : bool :=
  bool_decide (p ∈ dirs fs) || bool_decide (is_Some (files fs !! p)).

(** The directories on the way to [p], the last one being [p] itself
    (up to repeated separators). *)
Definition ancestors (p : string) : list string :=
  let comps := List.filter truthy (split_slash p) in
  let root := if isabs p then "/" else EmptyString in
  List.map (fun k => root +:+ str_join "/" (firstn k comps))
           (seq 1 (length comps)).

(** [os.makedirs(p, exist_ok=True)]: [p] and every missing parent become
    directories; nothing that exists is removed or changed. *)
Definition makedirs (p : string) (fs : FS) : FS :=
  {| dirs := dirs fs ∪ {[ p ]} ∪ list_to_set (ancestors p);
     files := files fs |}.

(** [with open(p, "w") as f: f.write(text)] followed by
    [os.chmod(p, m)]: the file is created or overwritten. *)
Definition write_file (p : string) (text : string) (m : Z) (fs : FS) : FS :=
  {| dirs := dirs fs;
     files := <[ p := {| content := text; mode := m |} ]> (files fs) |}.

(** What the process reads from its environment and from Hydra. *)
Record Env : Type := {
  cwd : string;                      (* os.getcwd() *)
  pkg_dir : string;                  (* get_pkg_dir() *)
  hydra_output_dir : string;         (* HydraConfig.get().runtime.output_dir *)
  hydra_output_subdir : option string; (* HydraConfig.get().output_subdir *)
  now : string;                      (* datetime.now().strftime(...) *)
  to_yaml : Conf.Config -> string;   (* OmegaConf.to_yaml *)
  host_line : string -> string * Z;  (* host and slot count of a hostfile line *)
}.

(** The mutable state: the one configuration object shared by the caller
    and the backend, the file system, and the lines given to the
    logger. *)
Record World : Type := {
  conf : Conf.Config;
  fs : FS;
  logged : list string;
}.

(** State and exceptions: a computation either returns a value or raises,
    and in both cases leaves the world it reached. *)
Definition M (A : Type) : Type := World -> (exn + A) * World.

Definition ret {A} (a : A) : M A := fun w => (inr a, w).

Definition raise {A} (e : exn) : M A := fun w => (inl e, w).

Definition bind {A B} (m : M A) (k : A -> M B) : M B :=
  fun w =>
    match m w with
    | (inr a, w') => k a w'
    | (inl e, w') => (inl e, w')
    end.

Definition get_conf : M Conf.Config := fun w => (inr (conf w), w).

Definition get_fs : M FS := fun w => (inr (fs w), w).

Definition set_conf (c : Conf.Config) : M unit :=
  fun w => (inr tt, {| conf := c; fs := fs w; logged := logged w |}).

Definition modify_fs (f : FS -> FS) : M unit :=
  fun w => (inr tt, {| conf := conf w; fs := f (fs w); logged := logged w |}).

Definition log_line (s : string) : M unit :=
  fun w => (inr tt, {| conf := conf w; fs := fs w; logged := logged w ++ [s] |}).

(** A value handed to [os.path.join] or [os.makedirs] must be a path:
    [None] is refused with a [TypeError]. *)
Definition as_path (a : option string) : M string :=
  match a with
  | Some d => ret d
  | None => raise (TypeError "expected str, bytes or os.PathLike object, not NoneType")
  end.

End Sys.

Notation "x <- m ;; k" := (Sys.bind m (fun x => k))
  (at level 90, m at level 89, right associativity, only parsing).
Notation "m ;;; k" := (Sys.bind m (fun _ => k))
  (at level 90, right associativity, only parsing).

(** ** [flagscale/runner/utils.py]

    The module is imported by the backend, but its code is not among the
    sources; each function below is modelled from the specification
    (sections 4.1 to 4.3) and from the unit tests of the module. *)

Module Utils.
Import Py PosixPath Sys Conf.

(** Modelled from the spec: the body of [resolve_path] is missing.
    "Absolute inputs pass through unchanged; relative inputs are joined
    against [base]", the base being the working directory. The join is
    normalised, as the unit tests [test_dot_relative_path] and
    [test_parent_relative_path] require. *)
Definition resolve (base path : string) : string :=
  if isabs path then path else normpath (join base [path]).

Definition missing_msg (config_key abs_path : string) : string :=
  "Config '" +:+ config_key +:+ "' path does not exist: " +:+ abs_path.

(** Modelled from the spec: the body of [resolve_path] is missing.
    With [raise_missing] a missing path fails with an error that names
    the configuration key; [raise_missing] takes precedence over
    [check_exists], which only logs a warning. *)
Definition resolve_path (env : Env) (path config_key : string)
    (check_exists raise_missing : bool) : M string :=
  let abs_path := resolve (cwd env) path in
  fs <- get_fs ;;
  if raise_missing && negb (path_exists fs abs_path) then
    raise (FileNotFoundError (missing_msg config_key abs_path))
  else if check_exists && negb (path_exists fs abs_path) then
    log_line ("WARNING " +:+ missing_msg config_key abs_path) ;;;
    ret abs_path
  else ret abs_path.

(** Modelled from the spec: the body of [setup_exp_dir] is missing.
    It "resolves the configured experiment root (relative to cwd if
    needed), creates it and all missing parent directories, returns the
    absolute path". *)
Definition setup_exp_dir (env : Env) (config : Config) : M string :=
  d <- resolve_path env (exp_dir (experiment config)) "experiment.exp_dir" false false ;;
  modify_fs (makedirs d) ;;;
  ret d.

(** Modelled from the spec: the body of [setup_logging_dirs] is missing.
    "If [loggingConfig] already specifies an explicit log directory, that
    value (resolved to absolute) is used verbatim; otherwise
    [logDir = <expDir>/<subdir>]. Derives and writes back
    [scriptsDir = <logDir>/scripts] and [pidsDir = <logDir>/pids]."
    The function returns the log directory together with the logging
    configuration as it leaves it; the caller's object is that one. *)
Definition setup_logging_dirs (env : Env) (logging_config : Logging)
    (exp_dir log_subdir : string) : string * Logging :=
  let log_dir' :=
    match log_dir logging_config with
    | Some d => resolve (cwd env) d
    | None => join exp_dir [log_subdir]
    end in
  (log_dir',
   {| log_dir := Some log_dir';
      scripts_dir := Some (join log_dir' ["scripts"]);
      pids_dir := Some (join log_dir' ["pids"]);
      tensorboard_dir := tensorboard_dir logging_config;
      wandb_save_dir := wandb_save_dir logging_config |}).

(** The default of the [log_subdir] argument. *)
Definition default_log_subdir : string := "logs".

(** *** Host pool *)

Record HostEntry : Type := {
  host : string;
  slotCount : Z;
  nodeRank : Z;
}.

Definition blank_line (l : string) : bool := negb (truthy (lstrip l)).

Definition comment_line (l : string) : bool := startswith (lstrip l) "#".

Definition skipped (l : string) : bool := blank_line l || comment_line l.

(** Modelled from the spec: the body of [parse_hostfile] is missing.
    "Read line by line; skip blank lines and comment lines; each
    remaining line identifies one host; [nodeRank] is assigned strictly
    by line order (0, 1, 2, ...)". [rank] is the next rank to give. *)
Fixpoint read_hosts (env : Env) (rank : Z) (lines : list string) : list HostEntry :=
  match lines with
  | [] => []
  | l :: rest =>
      if skipped l then read_hosts env rank rest
      else
        {| host := fst (host_line env l);
           slotCount := snd (host_line env l);
           nodeRank := rank |} :: read_hosts env (rank + 1) rest
  end.

(** The synthetic entry for the local machine. *)
Definition local_entry : HostEntry :=
  {| host := "localhost"; slotCount := 1; nodeRank := 0 |}.

(** Modelled from the spec: the body of [parse_hostfile] is missing.
    "Absent path: a single synthetic entry representing the local
    machine with [slotCount = 1], [nodeRank = 0]. Present path that does
    not exist: fails with [HostfileNotFound]." *)
Definition parse_hostfile (env : Env) (hostfile_path : option string)
    : M (list HostEntry) :=
  match hostfile_path with
  | None => ret [local_entry]
  | Some p =>
      fs <- get_fs ;;
      match files fs !! p with
      | None => raise (FileNotFoundError ("Hostfile not found: " +:+ p))
      | Some f => ret (read_hosts env 0 (split_on (ascii_of_nat 10) (content f)))
      end
  end.

(** The lines of a hostfile that name a host. *)
Definition host_lines (text : string) : list string :=
  List.filter (fun l => negb (blank_line l) && negb (comment_line l))
              (split_on (ascii_of_nat 10) text).

End Utils.

(** ** The shell fragment of the generated scripts

    The statements the two generators emit, the text each one is written
    as, and what running them does on a host. One [f.write] of the source
    is one element of [render]'s result. *)

Module Sh.
Import Py.

(** Simple commands. *)
Inductive cmd : Type :=
| Shebang                                   (* #!/bin/bash and an empty line *)
| Blank
| Hook (text : string)                      (* user supplied text, as is *)
| MkdirP (dir : string)
| Cd (dir : string)
| Export (var value : string)
| SetVar (var value : string)               (* var="value" *)
| CatInto (var file : string)               (* var=$(cat file) *)
| PkillChildrenOf (var : string)            (* pkill -P $var *)
| PkillMatching (pattern : string)          (* pkill -f 'pattern' *)
| RunCmd (out : option string)              (* bash -c "$cmd; sync" [>> out 2>&1] *)
| SpawnCmd (out pidfile : string).          (* nohup bash -c ... & echo $! > pidfile *)

(** Statements: a simple command, or a test on a regular file. *)
Inductive stmt : Type :=
| Do (c : cmd)
| IfFile (file : string) (yes no : list cmd).

Definition bash_c : string := "bash -c " +:+ dq +:+ "$cmd; sync" +:+ dq.

Definition render_cmd (indent : string) (c : cmd) : string :=
  match c with
  | Shebang => indent +:+ "#!/bin/bash" +:+ nl +:+ nl
  | Blank => nl
  | Hook text => indent +:+ text +:+ nl
  | MkdirP dir => indent +:+ "mkdir -p " +:+ dir +:+ nl
  | Cd dir => indent +:+ "cd " +:+ dir +:+ nl
  | Export var value => indent +:+ "export " +:+ var +:+ "=" +:+ value +:+ nl
  | SetVar var value => indent +:+ var +:+ "=" +:+ dq +:+ value +:+ dq +:+ nl
  | CatInto var file => indent +:+ var +:+ "=$(cat " +:+ file +:+ ")" +:+ nl
  | PkillChildrenOf var => indent +:+ "pkill -P $" +:+ var +:+ nl
  | PkillMatching pattern => indent +:+ "pkill -f '" +:+ pattern +:+ "'" +:+ nl
  | RunCmd None => indent +:+ bash_c +:+ " " +:+ nl
  | RunCmd (Some out) => indent +:+ bash_c +:+ " >> " +:+ out +:+ " 2>&1" +:+ nl
  | SpawnCmd out pidfile =>
      indent +:+ "nohup " +:+ bash_c +:+ " >> " +:+ out +:+ " 2>&1 & echo $! > "
      +:+ pidfile +:+ nl
  end.

Definition render (s : stmt) : list string :=
  match s with
  | Do c => [render_cmd EmptyString c]
  | IfFile file yes no =>
      ["if [ -f " +:+ file +:+ " ]; then" +:+ nl]
      ++ List.map (render_cmd "    ") yes
      ++ ["else" +:+ nl]
      ++ List.map (render_cmd "    ") no
      ++ ["fi" +:+ nl]
  end.

Definition render_script (prog : list stmt) : list string :=
  flat_map render prog.

(** Whom a kill is aimed at. *)
Inductive target : Type :=
| Process (pid : string)                    (* the process itself *)
| ChildrenOf (pid : string)                 (* the processes whose parent it is *)
| CommandLineMatching (pattern : string).   (* every process whose command line matches *)

(** What a script does, in order. [ERun command wait out]: a child shell
    runs [command]; the script blocks until it exits iff [wait]; the
    child's standard output and error are appended to [out] when given,
    else left on the script's own. [ERecordPid f]: the process id of the
    child started last is written to [f]. *)
Inductive event : Type :=
| EHook (text : string)
| EMkdir (dir : string)
| EChdir (dir : string)
| EExport (var value : string)
| ERun (command : string) (wait : bool) (out : option string)
| ERecordPid (pidfile : string)
| EKill (t : target).

(** The variables of the running script. *)
Definition var_value (v : gmap string string) (name : string) : string :=
  match v !! name with
  | Some s => s
  | None => EmptyString
  end.

(** [exec_cmd read v c]: run [c] with variables [v] on a host whose
    regular files are given by [read]. A hook is opaque: it is recorded
    and has no modelled effect on the variables. *)
Definition exec_cmd (read : string -> option string) (v : gmap string string)
    (c : cmd) : gmap string string * list event :=
  match c with
  | Shebang => (v, [])
  | Blank => (v, [])
  | Hook text => (v, [EHook text])
  | MkdirP dir => (v, [EMkdir dir])
  | Cd dir => (v, [EChdir dir])
  | Export var value => (<[ var := value ]> v, [EExport var value])
  | SetVar var value => (<[ var := value ]> v, [])
  | CatInto var file =>
      (<[ var := match read file with Some s => s | None => EmptyString end ]> v, [])
  | PkillChildrenOf var => (v, [EKill (ChildrenOf (var_value v var))])
  | PkillMatching pattern => (v, [EKill (CommandLineMatching pattern)])
  | RunCmd out => (v, [ERun (var_value v "cmd" +:+ "; sync") true out])
  | SpawnCmd out pidfile =>
      (v, [ERun (var_value v "cmd" +:+ "; sync") false (Some out); ERecordPid pidfile])
  end.

Fixpoint exec_cmds (read : string -> option string) (v : gmap string string)
    (cs : list cmd) : gmap string string * list event :=
  match cs with
  | [] => (v, [])
  | c :: rest =>
      let '(v1, e1) := exec_cmd read v c in
      let '(v2, e2) := exec_cmds read v1 rest in
      (v2, e1 ++ e2)
  end.

Definition exec (read : string -> option string) (v : gmap string string)
    (s : stmt) : gmap string string * list event :=
  match s with
  | Do c => exec_cmd read v c
  | IfFile file yes no =>
      match read file with
      | Some _ => exec_cmds read v yes
      | None => exec_cmds read v no
      end
  end.

Fixpoint exec_block (read : string -> option string) (v : gmap string string)
    (ss : list stmt) : gmap string string * list event :=
  match ss with
  | [] => (v, [])
  | s :: rest =>
      let '(v1, e1) := exec read v s in
      let '(v2, e2) := exec_block read v1 rest in
      (v2, e1 ++ e2)
  end.

(** The events of a whole script, started with no variable set. *)
Definition run (read : string -> option string) (prog : list stmt) : list event :=
  snd (exec_block read ∅ prog).

End Sh.

(** ** [flagscale/runner/backend/backend_native_compress.py] *)

Module Backend.
Import Py PosixPath Sys Conf Utils.

Definition _get_args_llmcompressor (env : Env) : M (list string) :=
  let output_dir := hydra_output_dir env in
  let output_subdir := hydra_output_subdir env in
  let config_path := join output_dir [str_of_opt output_subdir +:+ "/config.yaml"] in
  config_path <- resolve_path env config_path "hydra.config_path" false true ;;
  ret ["--config-path=" +:+ config_path].

(** [if logging.get(key, None)]: the key is present and not empty. *)
Definition given (o : option string) : bool :=
  match o with
  | Some s => truthy s
  | None => false
  end.

Definition set_tensorboard_dir (l : Logging) (d : string) : Logging :=
  {| log_dir := log_dir l; scripts_dir := scripts_dir l; pids_dir := pids_dir l;
     tensorboard_dir := Some d; wandb_save_dir := wandb_save_dir l |}.

Definition set_wandb_save_dir (l : Logging) (d : string) : Logging :=
  {| log_dir := log_dir l; scripts_dir := scripts_dir l; pids_dir := pids_dir l;
     tensorboard_dir := tensorboard_dir l; wandb_save_dir := Some d |}.

(** [_update_config_compress(config)], [config] being the configuration
    object of the world. Each assignment to a key of [system.logging] is
    a write to that object. ([OmegaConf.set_struct] only decides whether
    reading an absent key raises; the records have no absent field.) *)
Definition _update_config_compress (env : Env) : M unit :=
  config <- get_conf ;;
  exp_dir <- setup_exp_dir env config ;;
  let system := compress_system config in
  let logging1 := snd (setup_logging_dirs env (logging system) exp_dir "compress_logs") in
  set_conf (set_logging config logging1) ;;;
  tensorboard <-
    (if given (tensorboard_dir logging1)
     then resolve_path env (str_of_opt (tensorboard_dir logging1))
                       "logging.tensorboard_dir" false false
     else ret (join exp_dir ["tensorboard"])) ;;
  let logging2 := set_tensorboard_dir logging1 tensorboard in
  set_conf (set_logging config logging2) ;;;
  wandb <-
    (if given (wandb_save_dir logging2)
     then resolve_path env (str_of_opt (wandb_save_dir logging2))
                       "logging.wandb_save_dir" false false
     else ret (join exp_dir ["wandb"])) ;;
  set_conf (set_logging config (set_wandb_save_dir logging2 wandb)).

(** The attributes of a [NativeCompressBackend]; [self.config] is the
    configuration object of the world. *)
Record NativeCompressBackend : Type := {
  task_type : option string;
  user_args : list string;
  rdzv_id : string;
  user_envs : list (string * string);
  cur_envs : option (list (string * string));
  user_script : string;
  resources : list HostEntry;
}.

Definition _prepare (env : Env) (task_type : option string) : M NativeCompressBackend :=
  _update_config_compress env ;;;
  user_args <- _get_args_llmcompressor env ;;
  config <- get_conf ;;
  resources <- parse_hostfile env (hostfile (runner (experiment config))) ;;
  log_line (nl +:+ "************** configuration **************") ;;;
  log_line (nl +:+ to_yaml env config) ;;;
  ret {| task_type := task_type;
         user_args := user_args;
         rdzv_id := now env;
         user_envs := default [] (envs (experiment config));
         cur_envs := None;
         user_script := entrypoint (task (experiment config));
         resources := resources |}.

(** Modelled from the spec: the class [BackendBase] is missing. The
    specification gives the construction of a backend no effect besides
    the resolve-in-place step, which is [_prepare]; the initialiser stores
    the reference [self.config = config], the attribute that the next line
    of [__init__] reads, and the configuration object stays the one of the
    world. *)
Definition BackendBase__init__ : M unit := ret tt.

(** [NativeCompressBackend(config)], [config] being the configuration
    object of the world. *)
Definition __init__ (env : Env) : M NativeCompressBackend :=
  BackendBase__init__ ;;;
  config <- get_conf ;;
  let task_type := type (task (experiment config)) in
  if bool_decide (task_type = Some "compress") then _prepare env task_type
  else raise (AssertionError ("Unsupported task type: " +:+ str_of_opt task_type)).

Definition generate_run_script (env : Env) (self : NativeCompressBackend)
    (config : Config) (host : string) (node_rank : Z) (cmd : string)
    (background with_test : bool) : M string :=
  let system_config := compress_system config in
  let logging_config := logging (compress_system config) in
  let no_shared_fs := default false (no_shared_fs (runner (experiment config))) in
  log_dir' <- as_path (log_dir logging_config) ;;
  let host_output_file :=
    if no_shared_fs then join log_dir' ["host.output"]
    else join log_dir' ["host_" +:+ str_of_int node_rank +:+ "_" +:+ host +:+ ".output"] in
  scripts_dir' <- as_path (scripts_dir logging_config) ;;
  let host_run_script_file :=
    join scripts_dir' ["host_" +:+ str_of_int node_rank +:+ "_" +:+ host +:+ "_run.sh"] in
  pids_dir' <- as_path (pids_dir logging_config) ;;
  let host_pid_file :=
    join pids_dir' ["host_" +:+ str_of_int node_rank +:+ "_" +:+ host +:+ ".pid"] in
  modify_fs (makedirs scripts_dir') ;;;
  let pkg_dir := pkg_dir env in
  let compress_dir := join pkg_dir ["flagscale"; "compress"] in
  let megatron_dir := join pkg_dir ["flagscale"; "train"] in
  let cmds_config := cmds (experiment config) in
  let before_start :=
    match cmds_config with
    | Some c => default EmptyString (before_start c)
    | None => EmptyString
    end in
  let writes :=
    [ "#!/bin/bash" +:+ nl +:+ nl;
      before_start +:+ nl;
      "mkdir -p " +:+ save_dir system_config +:+ nl;
      "mkdir -p " +:+ str_of_opt (log_dir (logging system_config)) +:+ nl;
      "mkdir -p " +:+ str_of_opt (pids_dir (logging system_config)) +:+ nl;
      "mkdir -p " +:+ str_of_opt (tensorboard_dir (logging system_config)) +:+ nl;
      "mkdir -p " +:+ str_of_opt (wandb_save_dir (logging system_config)) +:+ nl;
      nl;
      "cd " +:+ pkg_dir +:+ nl;
      nl;
      "export PYTHONPATH=" +:+ compress_dir +:+ ":" +:+ megatron_dir +:+ ":" +:+ pkg_dir +:+ nl;
      nl;
      "cmd=" +:+ dq +:+ cmd +:+ dq +:+ nl;
      nl;
      (if with_test then
         "bash -c " +:+ dq +:+ "$cmd; sync" +:+ dq +:+ " " +:+ nl
       else if background then
         "nohup bash -c " +:+ dq +:+ "$cmd; sync" +:+ dq +:+ " >> " +:+ host_output_file
         +:+ " 2>&1 & echo $! > " +:+ host_pid_file +:+ nl
       else
         "bash -c " +:+ dq +:+ "$cmd; sync" +:+ dq +:+ " >> " +:+ host_output_file
         +:+ " 2>&1" +:+ nl);
      nl ] in
  modify_fs (write_file host_run_script_file (String.concat EmptyString writes) 493) ;;;
  ret host_run_script_file.

Definition generate_stop_script (env : Env) (self : NativeCompressBackend)
    (config : Config) (host : string) (node_rank : Z) : M string :=
  let logging_config := logging (compress_system config) in
  scripts_dir' <- as_path (scripts_dir logging_config) ;;
  let host_stop_script_file :=
    join scripts_dir' ["host_" +:+ str_of_int node_rank +:+ "_" +:+ host +:+ "_stop.sh"] in
  pids_dir' <- as_path (pids_dir logging_config) ;;
  let host_pid_file :=
    join pids_dir' ["host_" +:+ str_of_int node_rank +:+ "_" +:+ host +:+ ".pid"] in
  modify_fs (makedirs scripts_dir') ;;;
  let cmds_config := cmds (experiment config) in
  let after_stop :=
    match cmds_config with
    | Some c => default EmptyString (after_stop c)
    | None => EmptyString
    end in
  let writes :=
    [ "#!/bin/bash" +:+ nl +:+ nl;
      "if [ -f " +:+ host_pid_file +:+ " ]; then" +:+ nl;
      "    pid=$(cat " +:+ host_pid_file +:+ ")" +:+ nl;
      "    pkill -P $pid" +:+ nl;
      "else" +:+ nl;
      "    pkill -f 'python'" +:+ nl;
      "fi" +:+ nl;
      after_stop +:+ nl ] in
  modify_fs (write_file host_stop_script_file (String.concat EmptyString writes) 493) ;;;
  ret host_stop_script_file.

(** *** The generated scripts as programs *)

(** The command line of the run script, by mode. *)
Definition launch (background with_test : bool) (out pidfile : string) : Sh.cmd :=
  if with_test then Sh.RunCmd None
  else if background then Sh.SpawnCmd out pidfile
  else Sh.RunCmd (Some out).

Definition run_script (before_start save log pids tensorboard wandb pkg cmd : string)
    (launcher : Sh.cmd) : list Sh.stmt :=
  List.map Sh.Do
    [ Sh.Shebang;
      Sh.Hook before_start;
      Sh.MkdirP save;
      Sh.MkdirP log;
      Sh.MkdirP pids;
      Sh.MkdirP tensorboard;
      Sh.MkdirP wandb;
      Sh.Blank;
      Sh.Cd pkg;
      Sh.Blank;
      Sh.Export "PYTHONPATH"
        (join pkg ["flagscale"; "compress"] +:+ ":" +:+ join pkg ["flagscale"; "train"]
         +:+ ":" +:+ pkg);
      Sh.Blank;
      Sh.SetVar "cmd" cmd;
      Sh.Blank;
      launcher;
      Sh.Blank ].

Definition stop_script (pidfile after_stop : string) : list Sh.stmt :=
  [ Sh.Do Sh.Shebang;
    Sh.IfFile pidfile
      [Sh.CatInto "pid" pidfile; Sh.PkillChildrenOf "pid"]
      [Sh.PkillMatching "python"];
    Sh.Do (Sh.Hook after_stop) ].

(** The local variables of the two generators, as functions of what
    they are computed from. *)
Definition host_name (node_rank : Z) (host suffix : string) : string :=
  "host_" +:+ str_of_int node_rank +:+ "_" +:+ host +:+ suffix.

Definition host_output_file (config : Config) (log_dir' host : string)
    (node_rank : Z) : string :=
  if default false (no_shared_fs (runner (experiment config)))
  then join log_dir' ["host.output"]
  else join log_dir' [host_name node_rank host ".output"].

Definition host_run_script_file (scripts_dir' host : string) (node_rank : Z) : string :=
  join scripts_dir' [host_name node_rank host "_run.sh"].

Definition host_stop_script_file (scripts_dir' host : string) (node_rank : Z) : string :=
  join scripts_dir' [host_name node_rank host "_stop.sh"].

Definition host_pid_file (pids_dir' host : string) (node_rank : Z) : string :=
  join pids_dir' [host_name node_rank host ".pid"].

Definition hook (select : Cmds -> option string) (config : Config) : string :=
  match cmds (experiment config) with
  | Some c => default EmptyString (select c)
  | None => EmptyString
  end.

(** The run script of a host, read as a program. *)
Definition run_script_of (env : Env) (config : Config) (host : string)
    (node_rank : Z) (cmd : string) (background with_test : bool)
    (log_dir' pids_dir' : string) : list Sh.stmt :=
  run_script (hook before_start config)
    (save_dir (compress_system config))
    (str_of_opt (log_dir (logging (compress_system config))))
    (str_of_opt (pids_dir (logging (compress_system config))))
    (str_of_opt (tensorboard_dir (logging (compress_system config))))
    (str_of_opt (wandb_save_dir (logging (compress_system config))))
    (pkg_dir env) cmd
    (launch background with_test
       (host_output_file config log_dir' host node_rank)
       (host_pid_file pids_dir' host node_rank)).

(** What the run script does before it launches the command. *)
Definition setup_events (env : Env) (config : Config) : list Sh.event :=
  [ Sh.EHook (hook before_start config);
    Sh.EMkdir (save_dir (compress_system config));
    Sh.EMkdir (str_of_opt (log_dir (logging (compress_system config))));
    Sh.EMkdir (str_of_opt (pids_dir (logging (compress_system config))));
    Sh.EMkdir (str_of_opt (tensorboard_dir (logging (compress_system config))));
    Sh.EMkdir (str_of_opt (wandb_save_dir (logging (compress_system config))));
    Sh.EChdir (pkg_dir env);
    Sh.EExport "PYTHONPATH"
      (join (pkg_dir env) ["flagscale"; "compress"] +:+ ":"
       +:+ join (pkg_dir env) ["flagscale"; "train"] +:+ ":" +:+ pkg_dir env) ].




(** The world a generator leaves: the scripts directory exists and the
    script is in place, executable. *)
Definition with_script (w : World) (scripts_dir' path text : string) : World :=
  {| conf := conf w;
     fs := write_file path text 493 (makedirs scripts_dir' (fs w));
     logged := logged w |}.

End Backend.

(** ** A concrete installation, used to run the definitions *)

Module Sample.
Import Py Sys Conf.

(** The text of a line up to its first blank. *)
Fixpoint first_token (s : string) : string :=
  match s with
  | EmptyString => EmptyString
  | String c r => if is_space c then EmptyString else String c (first_token r)
  end.

Definition env : Env :=
  {| cwd := "/work";
     pkg_dir := "/opt/FlagScale";
     hydra_output_dir := "/tmp/exp1/hydra";
     hydra_output_subdir := Some ".hydra";
     now := "20240101_120000.000000";
     to_yaml := fun _ => "experiment: ...";
     host_line := fun l => (first_token (lstrip l), 1%Z) |}.

Definition raw_logging : Logging :=
  {| log_dir := None; scripts_dir := None; pids_dir := None;
     tensorboard_dir := None; wandb_save_dir := None |}.

Definition logging : Logging :=
  {| log_dir := Some "/tmp/exp1/logs";
     scripts_dir := Some "/tmp/exp1/logs/scripts";
     pids_dir := Some "/tmp/exp1/logs/pids";
     tensorboard_dir := Some "/tmp/exp1/tensorboard";
     wandb_save_dir := Some "/tmp/exp1/wandb" |}.

Definition experiment (task_type : option string) (no_shared : option bool) : Experiment :=
  {| exp_dir := "/tmp/exp1";
     task := {| type := task_type; entrypoint := "compress.py" |};
     runner := {| hostfile := None; no_shared_fs := no_shared |};
     cmds := Some {| before_start := Some "source env.sh";
                     after_stop := Some "echo stopped" |};
     envs := Some [("CUDA_VISIBLE_DEVICES", "0")] |}.

Definition config (task_type : option string) (no_shared : option bool)
    (l : Logging) : Config :=
  {| Conf.experiment := experiment task_type no_shared;
     compress_system := {| save_dir := "/tmp/exp1/ckpt"; Conf.logging := l |} |}.

Definition empty_fs : FS := {| dirs := ∅; files := ∅ |}.

Definition hostfile_fs : FS :=
  {| dirs := ∅;
     files := {[ "/tmp/hostfile" :=
                   {| content := "# pool" +:+ nl +:+ "node-a" +:+ nl +:+ nl
                                 +:+ "node-b" +:+ nl +:+ "  # spare" +:+ nl
                                 +:+ "node-c" +:+ nl;
                      mode := 420 |} ]} |}.

(** A file system that holds the configuration Hydra has written. *)
Definition hydra_fs : FS :=
  {| dirs := {[ "/tmp/exp1/hydra" ]};
     files := {[ "/tmp/exp1/hydra/.hydra/config.yaml" :=
                   {| content := "experiment: ..."; mode := 420 |} ]} |}.

Definition world (c : Config) (f : FS) : World :=
  {| conf := c; fs := f; logged := [] |}.

Definition self : Backend.NativeCompressBackend :=
  {| Backend.task_type := Some "compress";
     Backend.user_args := ["--config-path=/tmp/exp1/hydra/.hydra/config.yaml"];
     Backend.rdzv_id := now env;
     Backend.user_envs := [("CUDA_VISIBLE_DEVICES", "0")];
     Backend.cur_envs := None;
     Backend.user_script := "compress.py";
     Backend.resources := [Utils.local_entry] |}.

End Sample.

(** ** More on strings *)

Module Text.

(** [c in s]. *)
Fixpoint has_char (c : ascii) (s : string) : bool :=
  match s with
  | EmptyString => false
  | String a r => Ascii.eqb a c || has_char c r
  end.

End Text.

(** ** [pathlib] on POSIX

    Pure paths as [pathlib] keeps them: an anchor and the components, with
    empty components and [.] dropped. There are no symbolic links in the
    file system of the model, so that [resolve] is lexical. *)

Module Pathlib.
Import Py PosixPath.

Record Path : Type := {
  anchor : string;               (* EmptyString, "/" or "//" *)
  parts : list string;
}.

Definition component (c : string) : bool :=
  negb (String.eqb c EmptyString) && negb (String.eqb c ".").

(** [Path(text)]. *)
Definition of_str (text : string) : Path :=
  {| anchor := match initial_slashes text with
               | 0 => EmptyString
               | 2 => "//"
               | _ => "/"
               end;
     parts := List.filter component (split_slash text) |}.

(** [str(p)]. *)
Definition to_str (p : Path) : string :=
  match anchor p, parts p with
  | EmptyString, [] => "."
  | a, ps => a +:+ str_join "/" ps
  end.

(** [p / text]. *)
Definition div (p : Path) (text : string) : Path :=
  let q := of_str text in
  if truthy (anchor q) then q
  else {| anchor := anchor p; parts := parts p ++ parts q |}.

(** [p.parent]. *)
Definition parent (p : Path) : Path :=
  {| anchor := anchor p; parts := removelast (parts p) |}.

(** [p.name]. *)
Definition name (p : Path) : string := List.last (parts p) EmptyString.

(** [p.stem], as in Python 3.10 to 3.13: with [i = name.rfind('.')], the
    name up to [i] when [0 < i < len(name) - 1], the name otherwise. The
    text before the last dot is what joins all but the last of the pieces
    between dots. *)
Definition stem (p : Path) : string :=
  let pieces := split_on "." (name p) in
  let before := str_join "." (removelast pieces) in
  let after := List.last pieces EmptyString in
  match pieces with
  | _ :: _ :: _ => if truthy before && truthy after then before else name p
  | _ => name p
  end.

Fixpoint lstrip_slash (s : string) : string :=
  match s with
  | String c r => if Ascii.eqb c "/" then lstrip_slash r else s
  | EmptyString => EmptyString
  end.

(** [os.path.realpath(text)] without symbolic links: an absolute path is
    normalised from a single leading separator, a relative one is joined
    to the working directory and normalised. *)
Definition realpath (cwd text : string) : string :=
  if isabs text then normpath ("/" +:+ lstrip_slash text)
  else normpath (join2 cwd text).

(** [p.resolve()]. *)
Definition resolve (cwd : string) (p : Path) : Path :=
  of_str (realpath cwd (to_str p)).

(** Where the file system looks a path up: an absolute path as it is
    written, a relative one under the working directory. *)
Definition locate (cwd : string) (p : Path) : string :=
  if truthy (anchor p) then to_str p else to_str (div (of_str cwd) (to_str p)).

End Pathlib.

(** ** The commands of [flagscale/cli.py] *)

Module Commands.
Import Py PosixPath Sys Pathlib.

Inductive stream : Type := Stdout | Stderr.

(** One [typer.echo] or [typer.secho]. *)
Record Echo : Type := {
  to : stream;
  fg : option string;
  text : string;
}.

(** [SystemExit.code]. *)
Inductive exit_code : Type :=
| CodeNone
| CodeInt (n : Z)
| CodeStr (s : string).

(** What code outside [cli.py] may raise: [SystemExit], an instance of
    [Exception] (with its [str]), or another [BaseException] such as
    [KeyboardInterrupt]. *)
Inductive foreign : Type :=
| SystemExit (code : exit_code)
| AnException (text : string)
| ABaseException (name : string).

(** How a command fails: with the [typer.Exit] it raises, or with what it
    lets through. *)
Inductive failure : Type :=
| TyperExit (exit_code : Z)
| Foreign (e : foreign).

(** The calls a command makes to code outside [cli.py]. *)
Inductive call : Type :=
| CallMain (argv : list string)                                 (* flagscale.run.main() *)
| CallProcess (cmd : list string) (cwd : option string) (check : bool). (* subprocess.run *)

(** The process a command runs in. *)
Record Proc : Type := {
  pfs : FS;
  shown : list Echo;
  argv : list string;        (* sys.argv *)
  calls : list call;
}.

(** The machine and the code outside [cli.py]: each outside function sees
    the arguments and the file system, and leaves a file system and a
    result. *)
Record Host : Type := {
  hcwd : string;                                               (* Path.cwd() *)
  run_main : list string -> FS -> option foreign * FS;
  subprocess_run : list string -> option string -> FS -> (foreign + Z) * FS;
  version : string;                                            (* flagscale.__version__ *)
}.

Definition C (A : Type) : Type := Proc -> (failure + A) * Proc.

Definition cret {A} (a : A) : C A := fun p => (inr a, p).

Definition cfail {A} (f : failure) : C A := fun p => (inl f, p).

Definition cbind {A B} (m : C A) (k : A -> C B) : C B :=
  fun p =>
    match m p with
    | (inr a, p') => k a p'
    | (inl f, p') => (inl f, p')
    end.

(** [typer.echo(text, err=...)] and [typer.secho(text, fg=..., err=...)]. *)
Definition echo (s : stream) (colour : option string) (t : string) : C unit :=
  fun p => (inr tt,
            {| pfs := pfs p;
               shown := shown p ++ [{| to := s; fg := colour; text := t |}];
               argv := argv p; calls := calls p |}).

(** [raise typer.Exit(code)]. *)
Definition exit {A} (code : Z) : C A := cfail (TyperExit code).

(** [p.exists()]. *)
Definition path_is_there (h : Host) (p : Path) : C bool :=
  fun s => (inr (path_exists (pfs s) (locate (hcwd h) p)), s).

(** [p.mkdir(parents=True)]. *)
Definition mkdir_parents (h : Host) (p : Path) : C unit :=
  fun s => (inr tt,
            {| pfs := makedirs (locate (hcwd h) p) (pfs s);
               shown := shown s; argv := argv s; calls := calls s |}).

(** [sys.argv = args]. *)
Definition set_argv (args : list string) : C unit :=
  fun p => (inr tt, {| pfs := pfs p; shown := shown p; argv := args; calls := calls p |}).

(** [subprocess.run(cmd, cwd=..., check=...)]: the return code, unless the
    call itself raises; with [check], a return code other than 0 is a
    [CalledProcessError], given here as [inl] of the code. *)
Definition run_process (h : Host) (cmd : list string) (cwd : option string)
    (check : bool) : C (Z + Z) :=
  fun p =>
    let p1 := {| pfs := pfs p; shown := shown p; argv := argv p;
                 calls := calls p ++ [CallProcess cmd cwd check] |} in
    match subprocess_run h cmd cwd (pfs p1) with
    | (inl e, f) =>
        (inl (Foreign e),
         {| pfs := f; shown := shown p1; argv := argv p1; calls := calls p1 |})
    | (inr code, f) =>
        (inr (if check && negb (Z.eqb code 0) then inl code else inr code),
         {| pfs := f; shown := shown p1; argv := argv p1; calls := calls p1 |})
    end.

End Commands.

Notation "x <~ m ;; k" := (Commands.cbind m (fun x => k))
  (at level 90, m at level 89, right associativity, only parsing).
Notation "m ~;; k" := (Commands.cbind m (fun _ => k))
  (at level 90, right associativity, only parsing).

Module CliCommands.
Import Py PosixPath Sys Pathlib Commands.

(** [class Action(str, Enum)] and its [.value]. *)
Module Action.
Inductive t : Type := run | dryrun | test | stop | query | auto_tune.

Definition value (a : t) : string :=
  match a with
  | run => "run"
  | dryrun => "dryrun"
  | test => "test"
  | stop => "stop"
  | query => "query"
  | auto_tune => "auto_tune"
  end.
End Action.

(** [class Platform(str, Enum)]. *)
Module Platform.
Inductive t : Type := cuda | default.

Definition value (a : t) : string :=
  match a with
  | cuda => "cuda"
  | default => "default"
  end.
End Platform.

(** [class PkgManager(str, Enum)]. *)
Module PkgManager.
Inductive t : Type := uv | pip | conda.

Definition value (a : t) : string :=
  match a with
  | uv => "uv"
  | pip => "pip"
  | conda => "conda"
  end.
End PkgManager.

(** A helper of [Cli] run inside a command: what it echoed goes to
    standard error, and its [Exit] is the command's. *)
Definition lift {A} (o : Cli.outcome A) : C A :=
  fun p =>
    let p' := {| pfs := pfs p;
                 shown := shown p
                          ++ List.map (fun t => {| to := Stderr; fg := None; text := t |})
                                      (Cli.echoed o);
                 argv := argv p; calls := calls p |} in
    match Cli.result o with
    | inr a => (inr a, p')
    | inl (Exit code) => (inl (TyperExit code), p')
    | inl e => (inl (Foreign (AnException (exn_payload e))), p')
    end.

Definition resolve_config (h : Host) (model_name : string) (yaml_path : option Path)
    (task : string) : C (string * string) :=
  match yaml_path with
  | Some yaml_path =>
      let yaml_path := resolve (hcwd h) yaml_path in
      there <~ path_is_there h yaml_path ;;
      if negb there then
        echo Stderr None ("Error: " +:+ to_str yaml_path +:+ " does not exist") ~;;
        exit 1
      else cret (to_str (parent yaml_path), stem yaml_path)
  | None =>
      let yaml_path :=
        div (div (div (div (of_str (hcwd h)) "examples") model_name) "conf")
            (task +:+ ".yaml") in
      there <~ path_is_there h yaml_path ;;
      if negb there then
        echo Stderr None ("Error: " +:+ to_str yaml_path +:+ " does not exist") ~;;
        exit 1
      else cret (to_str (parent yaml_path), stem yaml_path)
  end.

Definition _handle_config_error {A} (error config_path config_name : string) : C A :=
  let config_file := config_path +:+ "/" +:+ config_name +:+ ".yaml" in
  echo Stderr (Some "red") ("Config error in: " +:+ config_file) ~;;
  echo Stderr (Some "red") ("Error: " +:+ error) ~;;
  echo Stderr (Some "yellow")
       ("Hint: Check that the config file exists, all defaults are resolvable, "
        +:+ "and required fields are present.") ~;;
  exit 1.

(** [run_main()], with [sys.argv] as it stands. *)
Definition call_main (h : Host) : C (option foreign) :=
  fun p =>
    let p1 := {| pfs := pfs p; shown := shown p; argv := argv p;
                 calls := calls p ++ [CallMain (argv p)] |} in
    (inr (fst (run_main h (argv p) (pfs p1))),
     {| pfs := snd (run_main h (argv p) (pfs p1));
        shown := shown p1; argv := argv p1; calls := calls p1 |}).

(** [e.code and e.code != 0]. *)
Definition code_is_failure (code : exit_code) : bool :=
  match code with
  | CodeNone => false
  | CodeInt n => negb (Z.eqb n 0)
  | CodeStr s => truthy s
  end.

Definition run_task (h : Host) (config_path config_name action : string)
    (extra_args : option (list string)) : C unit :=
  let args :=
    [ "run.py";
      "--config-path=" +:+ config_path;
      "--config-name=" +:+ config_name;
      "action=" +:+ action ] in
  let args :=
    match extra_args with
    | Some (x :: rest) => args ++ x :: rest
    | _ => args
    end in
  set_argv args ~;;
  raised <~ call_main h ;;
  match raised with
  | None => cret tt
  | Some (SystemExit code) =>
      if code_is_failure code then cfail (Foreign (SystemExit code)) else cret tt
  | Some (AnException e) => _handle_config_error e config_path config_name
  | Some (ABaseException n) => cfail (Foreign (ABaseException n))
  end.

Definition run_cmd (h : Host) (config_path : Path) (config_name : string)
    (action : Action.t) (overrides : option (list string)) : C unit :=
  let config_path := resolve (hcwd h) config_path in
  there <~ path_is_there h config_path ;;
  if negb there then
    echo Stderr None ("Error: Config path does not exist: " +:+ to_str config_path) ~;;
    exit 1
  else
    let config_file := div config_path (config_name +:+ ".yaml") in
    there <~ path_is_there h config_file ;;
    if negb there then
      echo Stderr None ("Error: Config file does not exist: " +:+ to_str config_file) ~;;
      exit 1
    else
      echo Stdout None
           ("Running: flagscale --config-path=" +:+ to_str config_path +:+ " "
            +:+ "--config-name=" +:+ config_name +:+ " action=" +:+ Action.value action) ~;;
      run_task h (to_str config_path) config_name (Action.value action)
               (match overrides with
                | Some (x :: rest) => Some (x :: rest)
                | _ => None
                end).

Definition train (h : Host) (model : string) (config : option Path)
    (stop dryrun test query tune : bool) : C unit :=
  action <~ lift (Cli.get_action stop dryrun test query tune) ;;
  cfg <~ resolve_config h model config "train" ;;
  echo Stdout None ("Train " +:+ model +:+ " [" +:+ action +:+ "]") ~;;
  echo Stdout None ("config_path: " +:+ fst cfg) ~;;
  echo Stdout None ("config_name: " +:+ snd cfg) ~;;
  run_task h (fst cfg) (snd cfg) action None.

Definition serve_warning : string :=
  "Warning: When serving, please specify the relevant environment variables. "
  +:+ "When serving on multiple machines, ensure that the necessary parameters, "
  +:+ "such as hostfile, are set correctly. For details, refer to: "
  +:+ "https://github.com/FlagOpen/FlagScale/blob/main/flagscale/serve/README.md".

(** [if port:] and [if model_path:]. *)
Definition int_given (o : option Z) : bool :=
  match o with
  | Some n => negb (Z.eqb n 0)
  | None => false
  end.

Definition str_given (o : option string) : bool :=
  match o with
  | Some s => truthy s
  | None => false
  end.

Definition serve (h : Host) (model : string) (config : option Path)
    (stop test tune : bool) (port : option Z) (model_path engine_args : option string)
    : C unit :=
  let action :=
    if stop then "stop" else if test then "test" else if tune then "auto_tune" else "run" in
  cfg <~ resolve_config h model config "serve" ;;
  let extra := [] in
  let extra :=
    if int_given port
    then extra ++ ["+experiment.runner.cli_args.port=" +:+ str_of_int (default 0%Z port)]
    else extra in
  let extra :=
    if str_given model_path
    then extra ++ ["+experiment.runner.cli_args.model_path=" +:+ str_of_opt model_path]
    else extra in
  let extra :=
    if str_given engine_args
    then extra ++ ["+experiment.runner.cli_args.engine_args='" +:+ str_of_opt engine_args
                   +:+ "'"]
    else extra in
  echo Stdout None ("Serve " +:+ model +:+ " [" +:+ action +:+ "]") ~;;
  echo Stdout None ("config_path: " +:+ fst cfg) ~;;
  echo Stdout None ("config_name: " +:+ snd cfg) ~;;
  (if String.eqb action "run" then echo Stdout (Some "yellow") serve_warning else cret tt) ~;;
  run_task h (fst cfg) (snd cfg) action (Some extra).

Definition inference (h : Host) (model : string) (config : option Path)
    (stop dryrun test : bool) : C unit :=
  action <~ lift (Cli.get_action stop dryrun test false false) ;;
  cfg <~ resolve_config h model config "inference" ;;
  echo Stdout None ("Inference " +:+ model +:+ " [" +:+ action +:+ "]") ~;;
  run_task h (fst cfg) (snd cfg) action None.

Definition rl (h : Host) (model : string) (config : option Path)
    (stop dryrun test : bool) : C unit :=
  action <~ lift (Cli.get_action stop dryrun test false false) ;;
  cfg <~ resolve_config h model config "rl" ;;
  echo Stdout None ("RL " +:+ model +:+ " [" +:+ action +:+ "]") ~;;
  run_task h (fst cfg) (snd cfg) action None.

Definition compress (h : Host) (model : string) (config : option Path)
    (stop dryrun : bool) : C unit :=
  let action := if stop then "stop" else if dryrun then "dryrun" else "run" in
  cfg <~ resolve_config h model config "compress" ;;
  echo Stdout None ("Compress " +:+ model +:+ " [" +:+ action +:+ "]") ~;;
  run_task h (fst cfg) (snd cfg) action None.

Definition install (h : Host) (platform : Platform.t) (task : string)
    (pkg_mgr : PkgManager.t) (no_system no_dev no_base no_task only_pip debug : bool)
    : C unit :=
  let install_script := div (div (div (of_str (hcwd h)) "tools") "install") "install.sh" in
  there <~ path_is_there h install_script ;;
  if negb there then
    echo Stderr None ("Error: Install script not found: " +:+ to_str install_script) ~;;
    exit 1
  else
    let cmd :=
      [ to_str install_script;
        "--platform";
        Platform.value platform;
        "--task";
        task;
        "--pkg-mgr";
        PkgManager.value pkg_mgr ] in
    let cmd := if no_system then cmd ++ ["--no-system"] else cmd in
    let cmd := if only_pip then cmd ++ ["--only-pip"] else cmd in
    let cmd := if no_dev then cmd ++ ["--no-dev"] else cmd in
    let cmd := if no_base then cmd ++ ["--no-base"] else cmd in
    let cmd := if no_task then cmd ++ ["--no-task"] else cmd in
    let cmd := if debug then cmd ++ ["--debug"] else cmd in
    echo Stdout None ("Running: " +:+ str_join " " cmd) ~;;
    result <~ run_process h cmd None false ;;
    let returncode := match result with inl c => c | inr c => c end in
    if negb (Z.eqb returncode 0) then exit returncode else cret tt.

Definition run_tests (h : Host) (platform : Platform.t) (device test_type : string)
    (task model test_list : option string) : C unit :=
  let test_script :=
    div (div (div (div (of_str (hcwd h)) "tests") "test_utils") "runners") "run_tests.sh" in
  there <~ path_is_there h test_script ;;
  if negb there then
    echo Stderr None ("Error: Test script not found: " +:+ to_str test_script) ~;;
    exit 1
  else
    let cmd :=
      [ to_str test_script;
        "--platform";
        Platform.value platform;
        "--device";
        device;
        "--type";
        test_type ] in
    let cmd := if str_given task then cmd ++ ["--task"; str_of_opt task] else cmd in
    let cmd := if str_given model then cmd ++ ["--model"; str_of_opt model] else cmd in
    let cmd := if str_given test_list then cmd ++ ["--list"; str_of_opt test_list] else cmd in
    echo Stdout None ("Running: " +:+ str_join " " cmd) ~;;
    result <~ run_process h cmd None false ;;
    let returncode := match result with inl c => c | inr c => c end in
    if negb (Z.eqb returncode 0) then exit returncode else cret tt.

Definition pull (h : Host) (image ckpt : string) (ckpt_path : option Path) : C unit :=
  let ckpt_path :=
    match ckpt_path with
    | None => div (of_str (hcwd h)) "model_download"
    | Some p => p
    end in
  there <~ path_is_there h ckpt_path ;;
  (if negb there then
     mkdir_parents h ckpt_path ~;;
     echo Stdout None ("Directory " +:+ to_str ckpt_path +:+ " created.")
   else cret tt) ~;;
  echo Stdout None ("Pulling Docker image: " +:+ image +:+ "...") ~;;
  pulled <~ run_process h ["docker"; "pull"; image] None true ;;
  match pulled with
  | inl _ =>
      echo Stderr None ("Failed to pull Docker image: " +:+ image) ~;;
      exit 1
  | inr _ =>
      echo Stdout None ("Successfully pulled Docker image: " +:+ image) ~;;
      echo Stdout None ("Cloning Git repository: " +:+ ckpt +:+ " into "
                        +:+ to_str ckpt_path +:+ "...") ~;;
      cloned <~ run_process h ["git"; "clone"; ckpt; to_str ckpt_path] None true ;;
      match cloned with
      | inl _ =>
          echo Stderr None ("Failed to clone Git repository: " +:+ ckpt) ~;;
          exit 1
      | inr _ =>
          echo Stdout None ("Successfully cloned Git repository: " +:+ ckpt) ~;;
          echo Stdout None "Pulling Git LFS files..." ~;;
          fetched <~ run_process h ["git"; "lfs"; "pull"] (Some (to_str ckpt_path)) true ;;
          match fetched with
          | inl _ =>
              echo Stderr None "Failed to pull Git LFS files" ~;;
              exit 1
          | inr _ => echo Stdout None "Successfully pulled Git LFS files"
          end
      end
  end.

Definition version_callback (h : Host) (value : option bool) : C unit :=
  if default false value then
    echo Stdout None ("flagscale version " +:+ version h) ~;;
    exit 0
  else cret tt.

(** *** Vocabulary for the properties of the commands *)

(** The file [resolve_config] looks for. *)
Definition looked_up (h : Host) (model_name : string) (yaml_path : option Path)
    (task : string) : Path :=
  match yaml_path with
  | Some yaml_path => resolve (hcwd h) yaml_path
  | None =>
      div (div (div (div (of_str (hcwd h)) "examples") model_name) "conf")
          (task +:+ ".yaml")
  end.

(** The process after some more echoes. *)
Definition showing (p : Proc) (more : list Echo) : Proc :=
  {| pfs := pfs p; shown := shown p ++ more; argv := argv p; calls := calls p |}.

Definition on_stderr (t : string) : Echo := {| to := Stderr; fg := None; text := t |}.

Definition on_stdout (t : string) : Echo := {| to := Stdout; fg := None; text := t |}.

(** The process after [run_main] was called with [args]. *)
Definition after_main (h : Host) (p : Proc) (args : list string) : Proc :=
  {| pfs := snd (run_main h args (pfs p));
     shown := shown p;
     argv := args;
     calls := calls p ++ [CallMain args] |}.

(** The arguments [run_task] gives to [run_main]. *)
Definition main_args (config_path config_name action : string) (extra : list string)
    : list string :=
  [ "run.py";
    "--config-path=" +:+ config_path;
    "--config-name=" +:+ config_name;
    "action=" +:+ action ] ++ extra.

(** The process after [subprocess.run] was called. *)
Definition after_process (h : Host) (p : Proc) (cmd : list string) (cwd : option string)
    (check : bool) : Proc :=
  {| pfs := snd (subprocess_run h cmd cwd (pfs p));
     shown := shown p;
     argv := argv p;
     calls := calls p ++ [CallProcess cmd cwd check] |}.

(** A process that was started and returned 0. *)
Definition succeeded (r : foreign + Z) : bool :=
  match r with
  | inr code => Z.eqb code 0
  | inl _ => false
  end.

(** A host on which [run_main] ends as told and every process returns the
    code told, none touching the file system. *)
Definition sample_host (main_ends : option foreign) (returns : list string -> Z) : Host :=
  {| hcwd := "/repo";
     run_main := fun _ f => (main_ends, f);
     subprocess_run := fun cmd _ f => (inr (returns cmd), f);
     version := "1.0.0" |}.

Definition sample_proc : Proc :=
  {| pfs := {| dirs := {[ "/repo" ]};
               files := {[ "/repo/examples/aquila/conf/train.yaml" :=
                             {| content := "experiment: ..."; mode := 420 |} ]} |};
     shown := [];
     argv := ["flagscale"];
     calls := [] |}.

End CliCommands.

(* ===================================================================== *)
(** * Part II: properties                                                 *)
(* ===================================================================== *)

(** ** The action dispatcher *)

Section ActionDispatcher.
Import Py Cli.

Example get_action_default : get_action false false false false false = Outcome [] (inr "run").
Proof. reflexivity. Qed.

Example get_action_tune : get_action false false false false true = Outcome [] (inr "auto_tune").
Proof. reflexivity. Qed.

Example get_action_stop_dryrun :
  get_action true true false false false
  = Outcome ["Error: Flags are mutually exclusive: --stop, --dryrun"] (inl (Exit 1)).
Proof. reflexivity. Qed.

Example get_action_all :
  get_action true true true true true
  = Outcome ["Error: Flags are mutually exclusive: --stop, --dryrun, --test, --query, --auto_tune"]
            (inl (Exit 1)).
Proof. reflexivity. Qed.

Ltac flag_cases :=
  repeat match goal with
         | b : bool |- _ => destruct b
         end.

Ltac named_flag :=
  match goal with
  | H : In _ _ |- _ => simpl in H; intuition (try congruence);
                       repeat match goal with
                              | E : (_, _) = (_, _) |- _ => inversion E; clear E; subst
                              end;
                       try discriminate; try reflexivity
  end.

(** C3, as the code has it: no flag gives ["run"], exactly one flag gives
    that flag's action name, in both cases with nothing echoed; two or
    more flags echo one message to standard error, in which every set
    flag is named, and raise [Exit] with exit code 1. *)
Theorem get_action_by_flag_count (stop dryrun test query tune : bool) :
  let n := count_set [stop; dryrun; test; query; tune] in
  let r := get_action stop dryrun test query tune in
  (n = 0 -> r = Outcome [] (inr "run"))
  /\ (n = 1 ->
      forall name, In (name, true) (flags stop dryrun test query tune) ->
                   r = Outcome [] (inr name))
  /\ (2 <= n ->
      result r = inl (Exit 1)
      /\ echoed r = [exclusive_msg (set_flags (flags stop dryrun test query tune))]
      /\ forall name, In (name, true) (flags stop dryrun test query tune) ->
                      exists msg, echoed r = [msg] /\ contains msg ("--" +:+ name) = true).
Proof.
  intros n r; subst n r.
  split; [| split]; intros Hn.
  - flag_cases; cbv in Hn; try lia; reflexivity.
  - intros name Hin.
    flag_cases; cbv in Hn; try lia; named_flag.
  - flag_cases; cbv in Hn; try lia;
      (split; [reflexivity | split; [reflexivity |]]);
      intros name Hin; (eexists; split; [reflexivity |]); named_flag.
Qed.

Lemma get_action_by_flag_count_witness :
  get_action false false false false false = Outcome [] (inr "run")
  /\ get_action false false true false false = Outcome [] (inr "test")
  /\ result (get_action false true false true false) = inl (Exit 1).
Proof.
  pose proof (get_action_by_flag_count false false false false false) as H0.
  pose proof (get_action_by_flag_count false false true false false) as H1.
  pose proof (get_action_by_flag_count false true false true false) as H2.
  cbv zeta in H0, H1, H2.
  split; [| split].
  - apply (proj1 H0). reflexivity.
  - apply (proj1 (proj2 H1)); [reflexivity | simpl; auto].
  - apply (proj2 (proj2 H2)). cbv. lia.
Defined.

(** C3, as the specification words it, fails: with [stop] and [dryrun]
    both set the exception raised is [Exit 1], and what it carries, the
    exit code, names neither flag. *)
Lemma get_action_payload_counterexample :
  ~ (exists e, result (get_action true true false false false) = inl e
               /\ contains (exn_payload e) "stop" = true
               /\ contains (exn_payload e) "dryrun" = true).
Proof.
  intros (e & He & Hstop & _).
  cbv in He. inversion He; subst e. cbv in Hstop. discriminate.
Qed.

End ActionDispatcher.

(** ** Paths *)

Section Paths.
Import Py PosixPath Sys Utils.

Lemma isabs_inv (p : string) : isabs p = true -> exists r, p = String "/" r.
Proof.
  unfold isabs.
  destruct p as [| c r]; [discriminate |].
  cbn [startswith].
  destruct (Ascii.eqb_spec c "/") as [-> | Hne]; [eauto | discriminate].
Qed.

Lemma isabs_cons (r : string) : isabs (String "/" r) = true.
Proof. reflexivity. Qed.

Lemma isabs_append (a b : string) : isabs a = true -> isabs (a +:+ b) = true.
Proof. intros [r ->]%isabs_inv. reflexivity. Qed.

Lemma isabs_join2 (a b : string) : isabs a = true -> isabs (join2 a b) = true.
Proof.
  intros Ha. unfold join2.
  destruct (startswith b "/") eqn:Hb; [exact Hb |].
  destruct (negb (truthy a) || endswith_char a "/"); auto using isabs_append.
Qed.

Lemma isabs_join (a : string) (p : list string) : isabs a = true -> isabs (join a p) = true.
Proof.
  unfold join. revert a.
  induction p as [| b p IH]; intros a Ha; cbn [fold_left]; [exact Ha |].
  apply IH, isabs_join2, Ha.
Qed.

Lemma isabs_normpath (p : string) : isabs p = true -> isabs (normpath p) = true.
Proof.
  intros Hp. destruct (isabs_inv p Hp) as [r ->].
  unfold normpath. cbn [truthy negb].
  unfold initial_slashes. fold (isabs (String "/" r)). rewrite Hp.
  destruct (startswith (String "/" r) "//" && negb (startswith (String "/" r) "///"));
    reflexivity.
Qed.

Lemma isabs_resolve (base p : string) : isabs base = true -> isabs (resolve base p) = true.
Proof.
  intros Hb. unfold resolve.
  destruct (isabs p) eqn:Hp; [exact Hp |].
  apply isabs_normpath, isabs_join, Hb.
Qed.

Lemma resolve_absolute (base p : string) : isabs p = true -> resolve base p = p.
Proof. intros Hp. unfold resolve. now rewrite Hp. Qed.

Lemma resolve_path_plain (env : Env) (p key : string) (w : World) :
  resolve_path env p key false false w = (inr (resolve (cwd env) p), w).
Proof. reflexivity. Qed.

(** The unit tests of [resolve_path]. *)
Example resolve_absolute_unchanged : resolve "/work" "/tmp/some/path" = "/tmp/some/path".
Proof. reflexivity. Qed.

Example resolve_relative : resolve "/tmp/x" "data/train" = "/tmp/x/data/train".
Proof. reflexivity. Qed.

Example resolve_dot_relative : resolve "/tmp/x" "./models/checkpoint" = "/tmp/x/models/checkpoint".
Proof. reflexivity. Qed.

Example resolve_parent_relative : resolve "/tmp/x/sub" "../sibling" = "/tmp/x/sibling".
Proof. reflexivity. Qed.

(** C6: [resolve_path] is idempotent. With the working directory an
    absolute path, resolving [p] returns an absolute path [q] and leaves
    the world as it was, resolving [q] returns [q] again, and an absolute
    [p] is returned unchanged. *)
Theorem resolve_path_idempotent (env : Env) (p key : string) (w : World) :
  isabs (cwd env) = true ->
  exists q,
    resolve_path env p key false false w = (inr q, w)
    /\ resolve_path env q key false false w = (inr q, w)
    /\ resolve (cwd env) (resolve (cwd env) p) = resolve (cwd env) p
    /\ isabs q = true
    /\ (isabs p = true -> q = p).
Proof.
  intros Hcwd. exists (resolve (cwd env) p).
  pose proof (isabs_resolve (cwd env) p Hcwd) as Habs.
  rewrite !resolve_path_plain, (resolve_absolute _ _ Habs).
  repeat split; auto using resolve_absolute.
Qed.

Lemma resolve_path_idempotent_witness :
  exists q,
    resolve_path Sample.env "data/../logs" "logging.log_dir" false false
                 (Sample.world (Sample.config None None Sample.raw_logging) Sample.empty_fs)
    = (inr q, Sample.world (Sample.config None None Sample.raw_logging) Sample.empty_fs)
    /\ q = "/work/logs".
Proof.
  destruct (resolve_path_idempotent Sample.env "data/../logs" "logging.log_dir"
              (Sample.world (Sample.config None None Sample.raw_logging) Sample.empty_fs)
              eq_refl) as (q & H1 & _).
  exists q. split; [exact H1 |].
  rewrite resolve_path_plain in H1. inversion H1. reflexivity.
Defined.

End Paths.

(** ** The experiment layout *)

Section ExperimentLayout.
Import Py PosixPath Sys Conf Utils.

(** Joining a relative name to a directory that is not empty and does not
    end in a separator puts exactly one separator between them. *)
Lemma join_sub (d name : string) :
  truthy d = true -> endswith_char d "/" = false -> startswith name "/" = false ->
  join d [name] = d +:+ "/" +:+ name.
Proof.
  intros Hd He Hn. unfold join, join2. cbn [fold_left].
  now rewrite Hn, Hd, He.
Qed.

Example setup_logging_dirs_exp1 :
  setup_logging_dirs Sample.env Sample.raw_logging "/tmp/exp1" default_log_subdir
  = ("/tmp/exp1/logs",
     {| log_dir := Some "/tmp/exp1/logs";
        scripts_dir := Some "/tmp/exp1/logs/scripts";
        pids_dir := Some "/tmp/exp1/logs/pids";
        tensorboard_dir := None;
        wandb_save_dir := None |}).
Proof. reflexivity. Qed.

Example setup_logging_dirs_relative_override :
  fst (setup_logging_dirs Sample.env
         {| log_dir := Some "relative_logs"; scripts_dir := None; pids_dir := None;
            tensorboard_dir := None; wandb_save_dir := None |}
         "/tmp/exp1" default_log_subdir)
  = "/work/relative_logs".
Proof. reflexivity. Qed.

(** C7: without an explicit log directory [setup_logging_dirs] returns
    [<exp_dir>/<log_subdir>] (the default sub-directory being ["logs"]);
    an explicit one is resolved to an absolute path and used as it is;
    in every case the log directory, [<log_dir>/scripts] and
    [<log_dir>/pids] are written back to the logging configuration, and
    all three are absolute. *)
Theorem setup_logging_dirs_layout (env : Env) (lc : Logging) (exp_dir log_subdir : string) :
  isabs (cwd env) = true ->
  isabs exp_dir = true ->
  let ld := fst (setup_logging_dirs env lc exp_dir log_subdir) in
  let lc' := snd (setup_logging_dirs env lc exp_dir log_subdir) in
  (log_dir lc = None -> ld = join exp_dir [log_subdir])
  /\ (log_dir lc = None -> endswith_char exp_dir "/" = false ->
      startswith log_subdir "/" = false -> ld = exp_dir +:+ "/" +:+ log_subdir)
  /\ (forall d, log_dir lc = Some d ->
                ld = resolve (cwd env) d /\ (isabs d = true -> ld = d))
  /\ log_dir lc' = Some ld
  /\ scripts_dir lc' = Some (join ld ["scripts"])
  /\ pids_dir lc' = Some (join ld ["pids"])
  /\ (endswith_char ld "/" = false ->
      scripts_dir lc' = Some (ld +:+ "/scripts") /\ pids_dir lc' = Some (ld +:+ "/pids"))
  /\ isabs ld = true
  /\ isabs (join ld ["scripts"]) = true
  /\ isabs (join ld ["pids"]) = true
  /\ default_log_subdir = "logs".
Proof.
  intros Hcwd Hexp ld lc'.
  assert (Hld : isabs ld = true).
  { subst ld. unfold setup_logging_dirs. cbn [fst].
    destruct (log_dir lc); [apply isabs_resolve, Hcwd | apply isabs_join, Hexp]. }
  assert (Htr : forall d, isabs d = true -> truthy d = true).
  { intros d [r ->]%isabs_inv. reflexivity. }
  split; [subst ld; unfold setup_logging_dirs; intros ->; reflexivity |].
  split.
  { subst ld. unfold setup_logging_dirs. intros -> He Hn. cbn [fst].
    apply join_sub; auto. }
  split.
  { intros d Hd. subst ld. unfold setup_logging_dirs. rewrite Hd. cbn [fst].
    split; [reflexivity | apply resolve_absolute]. }
  do 3 (split; [reflexivity |]).
  split.
  { intros He.
    change (scripts_dir lc') with (Some (join ld ["scripts"])).
    change (pids_dir lc') with (Some (join ld ["pids"])).
    rewrite !join_sub by auto. split; reflexivity. }
  repeat split; auto using isabs_join.
Qed.

Lemma setup_logging_dirs_layout_witness :
  fst (setup_logging_dirs Sample.env Sample.raw_logging "/tmp/exp1" "logs") = "/tmp/exp1/logs"
  /\ scripts_dir (snd (setup_logging_dirs Sample.env Sample.raw_logging "/tmp/exp1" "logs"))
     = Some "/tmp/exp1/logs/scripts"
  /\ pids_dir (snd (setup_logging_dirs Sample.env Sample.raw_logging "/tmp/exp1" "logs"))
     = Some "/tmp/exp1/logs/pids".
Proof.
  pose proof (setup_logging_dirs_layout Sample.env Sample.raw_logging "/tmp/exp1" "logs"
                eq_refl eq_refl) as H.
  cbv zeta in H.
  destruct H as (_ & Hld & _ & _ & _ & _ & Hsub & _).
  specialize (Hld eq_refl eq_refl eq_refl).
  rewrite Hld in *. destruct (Hsub eq_refl) as [Hs Hp].
  repeat split; assumption.
Defined.

End ExperimentLayout.

(** ** The host pool *)

Section HostPool.
Import Py Sys Utils.

Lemma read_hosts_length (env : Env) (lines : list string) :
  forall rank,
    length (read_hosts env rank lines)
    = length (List.filter (fun l => negb (blank_line l) && negb (comment_line l)) lines).
Proof.
  induction lines as [| l rest IH]; intros rank; cbn [read_hosts List.filter]; [reflexivity |].
  unfold skipped.
  destruct (blank_line l); cbn [orb negb andb]; [apply IH |].
  destruct (comment_line l); cbn [negb length]; [apply IH |].
  f_equal. apply IH.
Qed.

Lemma read_hosts_lookup (env : Env) (lines : list string) :
  forall (rank : Z) (i : nat) (e : HostEntry),
    read_hosts env rank lines !! i = Some e -> nodeRank e = (rank + Z.of_nat i)%Z.
Proof.
  induction lines as [| l rest IH]; intros rank i e; cbn [read_hosts].
  - intros H. discriminate.
  - destruct (skipped l); [apply IH |].
    destruct i as [| i]; cbn.
    + intros [= <-]. cbn. lia.
    + intros H. rewrite (IH _ _ _ H). lia.
Qed.

Example parse_three_hosts :
  parse_hostfile Sample.env (Some "/tmp/hostfile")
    (Sample.world (Sample.config None None Sample.raw_logging) Sample.hostfile_fs)
  = (inr [ {| host := "node-a"; slotCount := 1; nodeRank := 0 |};
           {| host := "node-b"; slotCount := 1; nodeRank := 1 |};
           {| host := "node-c"; slotCount := 1; nodeRank := 2 |} ],
     Sample.world (Sample.config None None Sample.raw_logging) Sample.hostfile_fs).
Proof. vm_compute. reflexivity. Qed.

(** C5: the [i]-th entry of a parsed pool has [nodeRank = i], and the
    pool has as many entries as the hostfile has lines that are neither
    blank nor comments; without a hostfile the pool is the one local
    entry, of rank 0 and with one slot. (A hostfile that is named but
    does not exist is refused.) *)
Theorem parse_hostfile_ranks (env : Env) (w : World) :
  (parse_hostfile env None w = (inr [local_entry], w)
   /\ nodeRank local_entry = 0%Z /\ slotCount local_entry = 1%Z)
  /\ (forall p f,
        files (fs w) !! p = Some f ->
        exists pool,
          parse_hostfile env (Some p) w = (inr pool, w)
          /\ length pool = length (host_lines (content f))
          /\ (forall i e, pool !! i = Some e -> nodeRank e = Z.of_nat i)
          /\ List.map nodeRank pool = List.map Z.of_nat (seq 0 (length pool)))
  /\ (forall p,
        files (fs w) !! p = None ->
        exists msg, parse_hostfile env (Some p) w = (inl (FileNotFoundError msg), w)).
Proof.
  split; [repeat split |]. split.
  - intros p f Hf. eexists. unfold parse_hostfile, bind, get_fs. rewrite Hf.
    split; [reflexivity |].
    split; [apply read_hosts_length |].
    assert (Hrank : forall i e,
               read_hosts env 0 (split_on (ascii_of_nat 10) (content f)) !! i = Some e ->
               nodeRank e = Z.of_nat i).
    { intros i e H. rewrite (read_hosts_lookup _ _ _ _ _ H). lia. }
    split; [exact Hrank |].
    apply list_eq. intros i.
    rewrite !list_lookup_fmap.
    destruct (read_hosts env 0 _ !! i) as [e |] eqn:He; cbn.
    + rewrite (Hrank _ _ He).
      apply lookup_lt_Some in He. rewrite lookup_seq_lt by exact He. reflexivity.
    + apply lookup_ge_None in He. rewrite lookup_seq_ge by exact He. reflexivity.
  - intros p Hp. eexists. unfold parse_hostfile, bind, get_fs. rewrite Hp. reflexivity.
Qed.

Lemma parse_hostfile_ranks_witness :
  exists pool,
    parse_hostfile Sample.env (Some "/tmp/hostfile")
      (Sample.world (Sample.config None None Sample.raw_logging) Sample.hostfile_fs)
    = (inr pool, Sample.world (Sample.config None None Sample.raw_logging) Sample.hostfile_fs)
    /\ length pool = 3.
Proof.
  destruct (parse_hostfile_ranks Sample.env
              (Sample.world (Sample.config None None Sample.raw_logging) Sample.hostfile_fs))
    as (_ & Hsome & _).
  destruct (Hsome "/tmp/hostfile" _ eq_refl) as (pool & Hrun & Hlen & _).
  exists pool. split; [exact Hrun |]. rewrite Hlen. reflexivity.
Defined.

End HostPool.

(** ** The script generator *)

Section ScriptGenerator.
Import Py PosixPath Sys Conf Utils Backend.

Lemma append_assoc (a b c : string) : (a +:+ b) +:+ c = a +:+ b +:+ c.
Proof.
  induction a as [| x a IH]; [reflexivity |].
  change (String x ((a +:+ b) +:+ c) = String x (a +:+ b +:+ c)).
  now rewrite IH.
Qed.

Lemma with_script_lookup (w : World) (sd path text : string) :
  files (fs (with_script w sd path text)) !! path
  = Some {| content := text; mode := 493 |}.
Proof. cbn. apply lookup_insert_eq. Qed.

(** [generate_run_script] on a configuration whose three logging
    directories are set: the script it writes is the text of
    [run_script_of]. *)
Lemma generate_run_script_eq (env : Env) (self : NativeCompressBackend) (config : Config)
    (host : string) (node_rank : Z) (cmd : string) (background with_test : bool)
    (w : World) (ld sd pd : string) :
  log_dir (logging (compress_system config)) = Some ld ->
  scripts_dir (logging (compress_system config)) = Some sd ->
  pids_dir (logging (compress_system config)) = Some pd ->
  generate_run_script env self config host node_rank cmd background with_test w
  = (inr (host_run_script_file sd host node_rank),
     with_script w sd (host_run_script_file sd host node_rank)
       (String.concat EmptyString
          (Sh.render_script
             (run_script_of env config host node_rank cmd background with_test ld pd)))).
Proof.
  intros Hld Hsd Hpd.
  unfold generate_run_script, run_script_of, host_output_file, host_pid_file,
    host_run_script_file, host_name, hook.
  rewrite Hld, Hsd, Hpd.
  unfold bind, as_path, ret, modify_fs, with_script. cbn [fs conf logged].
  do 3 f_equal.
  destruct with_test, background, (default false (no_shared_fs (runner (experiment config))));
    cbn; rewrite ?append_assoc; reflexivity.
Qed.

Lemma generate_stop_script_eq (env : Env) (self : NativeCompressBackend) (config : Config)
    (host : string) (node_rank : Z) (w : World) (sd pd : string) :
  scripts_dir (logging (compress_system config)) = Some sd ->
  pids_dir (logging (compress_system config)) = Some pd ->
  generate_stop_script env self config host node_rank w
  = (inr (host_stop_script_file sd host node_rank),
     with_script w sd (host_stop_script_file sd host node_rank)
       (String.concat EmptyString
          (Sh.render_script
             (stop_script (host_pid_file pd host node_rank) (hook after_stop config))))).
Proof.
  intros Hsd Hpd.
  unfold generate_stop_script, host_pid_file, host_stop_script_file, host_name, hook.
  rewrite Hsd, Hpd.
  unfold bind, as_path, ret, modify_fs, with_script. cbn [fs conf logged].
  reflexivity.
Qed.

(** What the run script does on a host, whatever the host's files. *)
Lemma run_script_events (bs save log pids tb wandb pkg cmd : string) (launcher : Sh.cmd)
    (read : string -> option string) :
  Sh.run read (run_script bs save log pids tb wandb pkg cmd launcher)
  = [ Sh.EHook bs; Sh.EMkdir save; Sh.EMkdir log; Sh.EMkdir pids; Sh.EMkdir tb;
      Sh.EMkdir wandb; Sh.EChdir pkg;
      Sh.EExport "PYTHONPATH"
        (join pkg ["flagscale"; "compress"] +:+ ":" +:+ join pkg ["flagscale"; "train"]
         +:+ ":" +:+ pkg) ]
    ++ snd (Sh.exec_cmd read
              (<[ "cmd" := cmd ]>
                 (<[ "PYTHONPATH" :=
                       join pkg ["flagscale"; "compress"] +:+ ":"
                       +:+ join pkg ["flagscale"; "train"] +:+ ":" +:+ pkg ]> ∅))
              launcher).
Proof.
  unfold Sh.run, run_script.
  cbn [List.map Sh.exec_block Sh.exec Sh.exec_cmd snd app].
  destruct (Sh.exec_cmd read _ launcher) as [v e]. cbn [snd app].
  now rewrite app_nil_r.
Qed.

Lemma launch_events (background with_test : bool) (out pidfile cmd : string)
    (read : string -> option string) (v : gmap string string) :
  snd (Sh.exec_cmd read (<[ "cmd" := cmd ]> v) (launch background with_test out pidfile))
  = if with_test then [Sh.ERun (cmd +:+ "; sync") true None]
    else if background then
           [Sh.ERun (cmd +:+ "; sync") false (Some out); Sh.ERecordPid pidfile]
         else [Sh.ERun (cmd +:+ "; sync") true (Some out)].
Proof.
  unfold launch.
  destruct with_test, background; cbn [Sh.exec_cmd snd];
    unfold Sh.var_value; rewrite lookup_insert_eq; reflexivity.
Qed.

(** The run script of host [node-a], rank 0, on the sample installation,
    in background mode and without a shared file system. *)
Example run_script_node_a :
  generate_run_script Sample.env Sample.self
    (Sample.config (Some "compress") (Some true) Sample.logging)
    "node-a" 0 "python compress.py" true false
    (Sample.world (Sample.config (Some "compress") (Some true) Sample.logging) Sample.empty_fs)
  = (inr "/tmp/exp1/logs/scripts/host_0_node-a_run.sh",
     with_script
       (Sample.world (Sample.config (Some "compress") (Some true) Sample.logging)
                     Sample.empty_fs)
       "/tmp/exp1/logs/scripts" "/tmp/exp1/logs/scripts/host_0_node-a_run.sh"
       ("#!/bin/bash" +:+ nl +:+ nl
        +:+ "source env.sh" +:+ nl
        +:+ "mkdir -p /tmp/exp1/ckpt" +:+ nl
        +:+ "mkdir -p /tmp/exp1/logs" +:+ nl
        +:+ "mkdir -p /tmp/exp1/logs/pids" +:+ nl
        +:+ "mkdir -p /tmp/exp1/tensorboard" +:+ nl
        +:+ "mkdir -p /tmp/exp1/wandb" +:+ nl
        +:+ nl
        +:+ "cd /opt/FlagScale" +:+ nl
        +:+ nl
        +:+ "export PYTHONPATH=/opt/FlagScale/flagscale/compress:/opt/FlagScale/flagscale/train:/opt/FlagScale" +:+ nl
        +:+ nl
        +:+ "cmd=" +:+ dq +:+ "python compress.py" +:+ dq +:+ nl
        +:+ nl
        +:+ "nohup bash -c " +:+ dq +:+ "$cmd; sync" +:+ dq
        +:+ " >> /tmp/exp1/logs/host.output 2>&1 & echo $! > /tmp/exp1/logs/pids/host_0_node-a.pid" +:+ nl
        +:+ nl)).
Proof. reflexivity. Qed.

(** [generate_run_script] returns, the script is in place, and running
    it on a host does the set-up and then launches the command in the
    mode chosen. *)
Lemma generate_run_script_runs (env : Env) (self : NativeCompressBackend) (config : Config)
    (host : string) (node_rank : Z) (cmd : string) (background with_test : bool)
    (w : World) (ld sd pd : string) :
  log_dir (logging (compress_system config)) = Some ld ->
  scripts_dir (logging (compress_system config)) = Some sd ->
  pids_dir (logging (compress_system config)) = Some pd ->
  let path := host_run_script_file sd host node_rank in
  let out := host_output_file config ld host node_rank in
  let pidfile := host_pid_file pd host node_rank in
  let prog := run_script_of env config host node_rank cmd background with_test ld pd in
  exists w',
    generate_run_script env self config host node_rank cmd background with_test w
    = (inr path, w')
    /\ files (fs w') !! path
       = Some {| content := String.concat EmptyString (Sh.render_script prog); mode := 493 |}
    /\ forall read,
         Sh.run read prog
         = setup_events env config
           ++ (if with_test then [Sh.ERun (cmd +:+ "; sync") true None]
               else if background then
                      [Sh.ERun (cmd +:+ "; sync") false (Some out); Sh.ERecordPid pidfile]
                    else [Sh.ERun (cmd +:+ "; sync") true (Some out)]).
Proof.
  intros Hld Hsd Hpd path out pidfile prog.
  eexists. split; [apply (generate_run_script_eq _ _ _ _ _ _ _ _ _ ld sd pd); assumption |].
  split; [apply with_script_lookup |].
  intros read. subst prog. unfold run_script_of.
  rewrite run_script_events, launch_events. reflexivity.
Qed.

Lemma launch_in_run_script (env : Env) (config : Config) (host : string) (node_rank : Z)
    (cmd : string) (background with_test : bool) (ld pd : string) :
  In (Sh.Do (launch background with_test
               (host_output_file config ld host node_rank)
               (host_pid_file pd host node_rank)))
     (run_script_of env config host node_rank cmd background with_test ld pd).
Proof.
  unfold run_script_of, run_script. apply in_map.
  do 14 right. left. reflexivity.
Qed.



(** C1, as the code has it: in the two modes that write to an output
    file ([with_test] false), the command's output is appended to
    [<log_dir>/host.output] when [no_shared_fs] is true, and to the
    per-host file [<log_dir>/host_<rank>_<host>.output] when it is false
    or not given. *)
Theorem run_script_output_file (env : Env) (self : NativeCompressBackend)
    (config : Config) (host : string) (node_rank : Z) (cmd : string)
    (background : bool) (w : World) (ld sd pd : string) :
  log_dir (logging (compress_system config)) = Some ld ->
  scripts_dir (logging (compress_system config)) = Some sd ->
  pids_dir (logging (compress_system config)) = Some pd ->
  let path := host_run_script_file sd host node_rank in
  let prog := run_script_of env config host node_rank cmd background false ld pd in
  let out :=
    match no_shared_fs (runner (experiment config)) with
    | Some true => join ld ["host.output"]
    | _ => join ld ["host_" +:+ str_of_int node_rank +:+ "_" +:+ host +:+ ".output"]
    end in
  exists w',
    generate_run_script env self config host node_rank cmd background false w
    = (inr path, w')
    /\ files (fs w') !! path
       = Some {| content := String.concat EmptyString (Sh.render_script prog); mode := 493 |}
    /\ In (Sh.Do (if background
                  then Sh.SpawnCmd out (host_pid_file pd host node_rank)
                  else Sh.RunCmd (Some out))) prog
    /\ forall read command wait o,
         In (Sh.ERun command wait o) (Sh.run read prog) -> o = Some out.
Proof.
  intros Hld Hsd Hpd path prog out.
  destruct (generate_run_script_runs env self config host node_rank cmd background false w
              ld sd pd Hld Hsd Hpd) as (w' & Hrun & Hfile & Hev).
  pose proof (launch_in_run_script env config host node_rank cmd background false ld pd)
    as Hin.
  unfold launch in Hin.
  assert (Hout : host_output_file config ld host node_rank = out).
  { subst out. unfold host_output_file, host_name.
    destruct (no_shared_fs (runner (experiment config))) as [[|] |]; reflexivity. }
  rewrite Hout in *.
  exists w'. repeat split; try assumption.
  intros read command wait o. fold prog in Hev. rewrite Hev.
  unfold setup_events. destruct background; cbn [In app];
    intuition (try discriminate); congruence.
Qed.

Lemma run_script_output_file_witness :
  exists w',
    generate_run_script Sample.env Sample.self
      (Sample.config (Some "compress") (Some false) Sample.logging)
      "node-a" 0 "python compress.py" true false
      (Sample.world (Sample.config (Some "compress") (Some false) Sample.logging)
                    Sample.empty_fs)
    = (inr "/tmp/exp1/logs/scripts/host_0_node-a_run.sh", w')
    /\ In (Sh.Do (Sh.SpawnCmd "/tmp/exp1/logs/host_0_node-a.output"
                              "/tmp/exp1/logs/pids/host_0_node-a.pid"))
          (run_script_of Sample.env
             (Sample.config (Some "compress") (Some false) Sample.logging)
             "node-a" 0 "python compress.py" true false
             "/tmp/exp1/logs" "/tmp/exp1/logs/pids").
Proof.
  destruct (run_script_output_file Sample.env Sample.self
              (Sample.config (Some "compress") (Some false) Sample.logging)
              "node-a" 0 "python compress.py" true
              (Sample.world (Sample.config (Some "compress") (Some false) Sample.logging)
                            Sample.empty_fs)
              "/tmp/exp1/logs" "/tmp/exp1/logs/scripts" "/tmp/exp1/logs/pids"
              eq_refl eq_refl eq_refl) as (w' & Hrun & _ & Hin & _).
  exists w'. split; [exact Hrun | exact Hin].
Defined.

(** C1, as the specification words it, fails: with [no_shared_fs] true
    the script of host [node-a], rank 0, appends to the shared name
    [host.output] and nowhere mentions [host_0_node-a.output]; with
    [no_shared_fs] false it appends to [host_0_node-a.output]. *)
Lemma run_script_output_file_counterexample :
  (exists f,
      files (fs (snd (generate_run_script Sample.env Sample.self
                        (Sample.config (Some "compress") (Some true) Sample.logging)
                        "node-a" 0 "python compress.py" true false
                        (Sample.world
                           (Sample.config (Some "compress") (Some true) Sample.logging)
                           Sample.empty_fs))))
      !! "/tmp/exp1/logs/scripts/host_0_node-a_run.sh" = Some f
      /\ contains (content f) ">> /tmp/exp1/logs/host.output 2>&1" = true
      /\ contains (content f) "host_0_node-a.output" = false)
  /\ (exists f,
        files (fs (snd (generate_run_script Sample.env Sample.self
                          (Sample.config (Some "compress") (Some false) Sample.logging)
                          "node-a" 0 "python compress.py" true false
                          (Sample.world
                             (Sample.config (Some "compress") (Some false) Sample.logging)
                             Sample.empty_fs))))
        !! "/tmp/exp1/logs/scripts/host_0_node-a_run.sh" = Some f
        /\ contains (content f) ">> /tmp/exp1/logs/host_0_node-a.output 2>&1" = true
        /\ contains (content f) "/host.output" = false).
Proof.
  split; eexists; (split; [vm_compute; reflexivity |]); split; vm_compute; reflexivity.
Qed.



(** The stop script of host [node-a], rank 0, on the sample
    installation. *)
Example stop_script_node_a :
  generate_stop_script Sample.env Sample.self
    (Sample.config (Some "compress") None Sample.logging) "node-a" 0
    (Sample.world (Sample.config (Some "compress") None Sample.logging) Sample.empty_fs)
  = (inr "/tmp/exp1/logs/scripts/host_0_node-a_stop.sh",
     with_script
       (Sample.world (Sample.config (Some "compress") None Sample.logging) Sample.empty_fs)
       "/tmp/exp1/logs/scripts" "/tmp/exp1/logs/scripts/host_0_node-a_stop.sh"
       ("#!/bin/bash" +:+ nl +:+ nl
        +:+ "if [ -f /tmp/exp1/logs/pids/host_0_node-a.pid ]; then" +:+ nl
        +:+ "    pid=$(cat /tmp/exp1/logs/pids/host_0_node-a.pid)" +:+ nl
        +:+ "    pkill -P $pid" +:+ nl
        +:+ "else" +:+ nl
        +:+ "    pkill -f 'python'" +:+ nl
        +:+ "fi" +:+ nl
        +:+ "echo stopped" +:+ nl)).
Proof. reflexivity. Qed.



End ScriptGenerator.

(** ** Constructing the backend *)

Section BackendConstruction.
Import Py PosixPath Sys Conf Utils Backend.

(** [_update_config_compress] always returns, and leaves the five
    logging directories set: what the generators need. *)
Lemma update_config_prepared (env : Env) (w : World) :
  exists w',
    _update_config_compress env w = (inr tt, w')
    /\ experiment (conf w') = experiment (conf w)
    /\ logged w' = logged w
    /\ is_Some (log_dir (logging (compress_system (conf w'))))
    /\ is_Some (scripts_dir (logging (compress_system (conf w'))))
    /\ is_Some (pids_dir (logging (compress_system (conf w'))))
    /\ is_Some (tensorboard_dir (logging (compress_system (conf w'))))
    /\ is_Some (wandb_save_dir (logging (compress_system (conf w')))).
Proof.
  unfold _update_config_compress, setup_exp_dir.
  unfold bind at 1. unfold get_conf at 1.
  unfold bind at 1. unfold bind at 1. rewrite resolve_path_plain.
  unfold bind at 1. unfold modify_fs at 1. unfold ret at 1.
  unfold bind at 1. unfold set_conf at 1.
  cbn [setup_logging_dirs snd tensorboard_dir wandb_save_dir set_tensorboard_dir].
  unfold bind at 1.
  destruct (given (tensorboard_dir (logging (compress_system (conf w)))));
    [rewrite resolve_path_plain | unfold ret at 1];
    (unfold bind at 1; unfold set_conf at 1; unfold bind at 1);
    (destruct (given (wandb_save_dir (logging (compress_system (conf w)))));
     [rewrite resolve_path_plain | unfold ret at 1]);
    unfold set_conf; eexists; (split; [reflexivity |]); cbn; repeat split; eauto.
Qed.

Example init_compress :
  let w := Sample.world (Sample.config (Some "compress") None Sample.raw_logging)
                        Sample.hydra_fs in
  fst (__init__ Sample.env w)
  = inr {| task_type := Some "compress";
           user_args := ["--config-path=/tmp/exp1/hydra/.hydra/config.yaml"];
           rdzv_id := "20240101_120000.000000";
           user_envs := [("CUDA_VISIBLE_DEVICES", "0")];
           cur_envs := None;
           user_script := "compress.py";
           resources := [local_entry] |}
  /\ conf (snd (__init__ Sample.env w))
     = Sample.config (Some "compress") None
         {| log_dir := Some "/tmp/exp1/compress_logs";
            scripts_dir := Some "/tmp/exp1/compress_logs/scripts";
            pids_dir := Some "/tmp/exp1/compress_logs/pids";
            tensorboard_dir := Some "/tmp/exp1/tensorboard";
            wandb_save_dir := Some "/tmp/exp1/wandb" |}
  /\ path_exists (fs (snd (__init__ Sample.env w))) "/tmp/exp1" = true
  /\ path_exists (fs w) "/tmp/exp1" = false.
Proof. vm_compute. repeat split; reflexivity. Qed.

(** C10: when [experiment.task.type] is not ["compress"] (an absent type
    reads as [None]), constructing the backend raises an
    [AssertionError] whose message names the type, and the world is as
    it was: the configuration is not changed, nothing is created on the
    file system, nothing is logged. *)
Theorem init_rejects_other_task_types (env : Env) (w : World) :
  type (task (experiment (conf w))) <> Some "compress" ->
  __init__ env w
  = (inl (AssertionError
            ("Unsupported task type: " +:+ str_of_opt (type (task (experiment (conf w)))))),
     w).
Proof.
  intros Hne. unfold __init__, BackendBase__init__, bind, ret, get_conf.
  now rewrite bool_decide_eq_false_2.
Qed.

Lemma init_rejects_other_task_types_witness :
  __init__ Sample.env
    (Sample.world (Sample.config None None Sample.raw_logging) Sample.hydra_fs)
  = (inl (AssertionError "Unsupported task type: None"),
     Sample.world (Sample.config None None Sample.raw_logging) Sample.hydra_fs)
  /\ __init__ Sample.env
       (Sample.world (Sample.config (Some "train") None Sample.raw_logging) Sample.hydra_fs)
     = (inl (AssertionError "Unsupported task type: train"),
        Sample.world (Sample.config (Some "train") None Sample.raw_logging) Sample.hydra_fs).
Proof.
  split.
  - apply (init_rejects_other_task_types Sample.env
             (Sample.world (Sample.config None None Sample.raw_logging) Sample.hydra_fs)).
    discriminate.
  - apply (init_rejects_other_task_types Sample.env
             (Sample.world (Sample.config (Some "train") None Sample.raw_logging)
                           Sample.hydra_fs)).
    discriminate.
Defined.

(** The errors of [_prepare]: a missing Hydra configuration and a
    missing hostfile, each named in the message. *)
Lemma prepare_errors (env : Env) (t : option string) (w w' : World) (e : exn) :
  _prepare env t w = (inl e, w') ->
  logged w' = logged w
  /\ ((exists p, e = FileNotFoundError (missing_msg "hydra.config_path" p))
      \/ (exists p, hostfile (runner (experiment (conf w))) = Some p
                    /\ e = FileNotFoundError ("Hostfile not found: " +:+ p))).
Proof.
  unfold _prepare. unfold bind at 1.
  destruct (update_config_prepared env w) as (w1 & -> & Hexp & Hlog & _).
  unfold bind at 1. unfold _get_args_llmcompressor, resolve_path.
  unfold bind at 1. unfold bind at 1. unfold get_fs at 1.
  cbn [andb].
  destruct (negb (path_exists (fs w1) _)).
  - intros [= <- <-]. split; [exact Hlog |]. left. eauto.
  - unfold ret at 1. unfold ret at 1.
    unfold bind at 1. unfold get_conf at 1.
    unfold bind at 1. rewrite Hexp.
    unfold parse_hostfile.
    destruct (hostfile (runner (experiment (conf w)))) as [p |]; [| discriminate].
    unfold bind at 1. unfold get_fs at 1.
    destruct (files (fs w1) !! p); [discriminate |].
    intros [= <- <-]. split; [exact Hlog |]. right. eauto.
Qed.

(** C8, as the code has it: [get_action] reports conflicting flags by
    echoing a message to standard error and raising [Exit 1], and
    otherwise echoes nothing and returns; the errors found while the
    backend is constructed are raised as exceptions of a class of their
    own, never as an [Exit], with a message that names what was wrong:
    the task type, the configuration key and path, or the hostfile. *)
Theorem errors_raised_or_echoed (stop dryrun test query tune : bool) (env : Env) (w : World) :
  let r := Cli.get_action stop dryrun test query tune in
  (2 <= Cli.count_set [stop; dryrun; test; query; tune] ->
   Cli.result r = inl (Exit 1)
   /\ Cli.echoed r
      = [Cli.exclusive_msg (Cli.set_flags (Cli.flags stop dryrun test query tune))])
  /\ (Cli.count_set [stop; dryrun; test; query; tune] <= 1 ->
      Cli.echoed r = [] /\ exists action, Cli.result r = inr action)
  /\ (forall e w',
        __init__ env w = (inl e, w') ->
        is_typed_error e = true
        /\ logged w' = logged w
        /\ (e = AssertionError
                  ("Unsupported task type: "
                   +:+ str_of_opt (type (task (experiment (conf w)))))
            \/ (exists p, e = FileNotFoundError (missing_msg "hydra.config_path" p))
            \/ (exists p, hostfile (runner (experiment (conf w))) = Some p
                          /\ e = FileNotFoundError ("Hostfile not found: " +:+ p)))).
Proof.
  intros r. subst r. split; [| split].
  - intros Hn. destruct stop, dryrun, test, query, tune; cbv in Hn; try lia;
      split; reflexivity.
  - intros Hn. destruct stop, dryrun, test, query, tune; cbv in Hn; try lia;
      (split; [reflexivity | eexists; reflexivity]).
  - intros e w' Hinit.
    assert (Hcases :
              logged w' = logged w
              /\ (e = AssertionError
                    ("Unsupported task type: "
                     +:+ str_of_opt (type (task (experiment (conf w)))))
              \/ (exists p, e = FileNotFoundError (missing_msg "hydra.config_path" p))
              \/ (exists p, hostfile (runner (experiment (conf w))) = Some p
                            /\ e = FileNotFoundError ("Hostfile not found: " +:+ p)))).
    { revert Hinit. unfold __init__, BackendBase__init__, bind, ret, get_conf.
      destruct (bool_decide _).
      - intros H. destruct (prepare_errors _ _ _ _ _ H) as [Hlog Hwhich].
        split; [exact Hlog | right; exact Hwhich].
      - intros [= <- <-]. split; [reflexivity | left; reflexivity]. }
    destruct Hcases as [Hlog Hcases].
    split; [| split; [exact Hlog | exact Hcases]].
    destruct Hcases as [-> | [[p ->] | [p [_ ->]]]]; reflexivity.
Qed.

Lemma errors_raised_or_echoed_witness :
  Cli.result (Cli.get_action true false false true false) = inl (Exit 1)
  /\ Cli.echoed (Cli.get_action true false false true false)
     = ["Error: Flags are mutually exclusive: --stop, --query"]
  /\ Cli.echoed (Cli.get_action false false false true false) = []
  /\ is_typed_error (AssertionError "Unsupported task type: None") = true.
Proof.
  destruct (errors_raised_or_echoed true false false true false Sample.env
              (Sample.world (Sample.config None None Sample.raw_logging) Sample.hydra_fs))
    as (Hmany & _ & Hinit).
  destruct (errors_raised_or_echoed false false false true false Sample.env
              (Sample.world (Sample.config None None Sample.raw_logging) Sample.hydra_fs))
    as (_ & Hone & _).
  destruct Hmany as [Hexit Hecho]; [cbv; lia |].
  destruct Hone as [Hquiet _]; [cbv; lia |].
  destruct (Hinit (AssertionError "Unsupported task type: None")
              (Sample.world (Sample.config None None Sample.raw_logging) Sample.hydra_fs)
              eq_refl) as (Htyped & _).
  repeat split; assumption.
Defined.

(** C8, as the specification words it, fails: on conflicting flags
    [get_action] does print, and what it raises is [Exit], not an error
    of a class of its own. *)
Lemma get_action_prints_counterexample :
  ~ (forall stop dryrun test query tune,
        2 <= Cli.count_set [stop; dryrun; test; query; tune] ->
        Cli.echoed (Cli.get_action stop dryrun test query tune) = []
        /\ exists e, Cli.result (Cli.get_action stop dryrun test query tune) = inl e
                     /\ is_typed_error e = true).
Proof.
  intros H.
  destruct (H true true false false false) as [Hecho _]; [cbv; lia |].
  discriminate Hecho.
Qed.

End BackendConstruction.

(* ===================================================================== *)
(** * Part III: further properties of the code                            *)
(* ===================================================================== *)

#[local] Set Warnings "-clear-no-such-hyp".

(** ** File names of the hosts *)

Section HostFiles.
Import Py PosixPath Sys Conf Backend Text.

Lemma append_inj_l (a x y : string) : a +:+ x = a +:+ y -> x = y.
Proof.
  induction a as [| c a IH]; [exact id |].
  change (String c (a +:+ x) = String c (a +:+ y) -> x = y).
  intros [= H]. exact (IH H).
Qed.

Lemma length_append (a b : string) :
  String.length (a +:+ b) = String.length a + String.length b.
Proof.
  induction a as [| c a IH]; [reflexivity |].
  change (S (String.length (a +:+ b)) = S (String.length a + String.length b)).
  now rewrite IH.
Qed.

Lemma append_inj_r (s x y : string) : x +:+ s = y +:+ s -> x = y.
Proof.
  revert y. induction x as [| c x IH]; intros [| d y] H.
  - reflexivity.
  - apply (f_equal String.length) in H.
    change (String d y +:+ s) with (String d (y +:+ s)) in H.
    cbn [String.length append] in H. rewrite !length_append in H. cbn in H. lia.
  - apply (f_equal String.length) in H.
    change (String c x +:+ s) with (String c (x +:+ s)) in H.
    cbn [String.length append] in H. rewrite !length_append in H. cbn in H. lia.
  - change (String c (x +:+ s) = String d (y +:+ s)) in H.
    injection H as -> H. f_equal. exact (IH _ H).
Qed.

(** Two texts without underscore, each followed by an underscore, are
    found again from the concatenation. *)
Lemma split_at_underscore (s1 s2 h1 h2 : string) :
  has_char "_" s1 = false -> has_char "_" s2 = false ->
  s1 +:+ String "_" h1 = s2 +:+ String "_" h2 -> s1 = s2 /\ h1 = h2.
Proof.
  revert s2. induction s1 as [| c s1 IH]; intros [| d s2] H1 H2 H.
  - injection H as ->. split; reflexivity.
  - change (String "_" h1 = String d (s2 +:+ String "_" h2)) in H.
    injection H as <- _. cbn in H2. discriminate.
  - change (String c (s1 +:+ String "_" h1) = String "_" h2) in H.
    injection H as -> _. cbn in H1. discriminate.
  - change (String c (s1 +:+ String "_" h1) = String d (s2 +:+ String "_" h2)) in H.
    injection H as -> H.
    cbn [has_char] in H1, H2.
    apply orb_false_elim in H1 as [_ H1]. apply orb_false_elim in H2 as [_ H2].
    destruct (IH _ H1 H2 H) as [-> ->]. split; reflexivity.
Qed.

Lemma string_of_uint_digits (d : Decimal.uint) :
  has_char "_" (NilEmpty.string_of_uint d) = false.
Proof. induction d; cbn; auto. Qed.

Lemma str_of_int_no_underscore (z : Z) : has_char "_" (str_of_int z) = false.
Proof.
  unfold str_of_int, NilZero.string_of_int, NilZero.string_of_uint.
  destruct (Z.to_int z) as [[] | []]; try reflexivity;
    cbn [has_char Ascii.eqb orb]; apply (string_of_uint_digits (_ _)).
Qed.

Lemma str_of_int_inj (a b : Z) : str_of_int a = str_of_int b -> a = b.
Proof.
  unfold str_of_int. intros H.
  assert (Hnil : forall z, Z.to_int z <> Decimal.Pos Decimal.Nil
                           /\ Z.to_int z <> Decimal.Neg Decimal.Nil).
  { intros [| p | p]; cbn; split; try discriminate;
      intros [= Hp]; exact (DecimalPos.Unsigned.to_uint_nonnil p Hp). }
  apply DecimalZ.to_int_inj.
  pose proof (NilZero.isi (Z.to_int a) (proj1 (Hnil a)) (proj2 (Hnil a))) as Ha.
  pose proof (NilZero.isi (Z.to_int b) (proj1 (Hnil b)) (proj2 (Hnil b))) as Hb.
  rewrite H in Ha. rewrite Ha in Hb. now injection Hb.
Qed.

Lemma host_name_inj (r1 r2 : Z) (h1 h2 suffix : string) :
  host_name r1 h1 suffix = host_name r2 h2 suffix -> r1 = r2 /\ h1 = h2.
Proof.
  unfold host_name. intros H.
  apply (append_inj_l "host_") in H.
  rewrite <- !(append_assoc _ "_"), <- !append_assoc in H.
  apply append_inj_r in H.
  change (?a +:+ "_") with (a +:+ String "_" EmptyString) in H.
  rewrite !append_assoc in H.
  change (String "_" EmptyString +:+ ?h) with (String "_" h) in H.
  destruct (split_at_underscore _ _ _ _ (str_of_int_no_underscore r1)
              (str_of_int_no_underscore r2) H) as [Hr ->].
  split; [exact (str_of_int_inj _ _ Hr) | reflexivity].
Qed.

(** Two texts that end in tails of the same length end in the same tail. *)
Lemma tail_of_same_length (x y s t : string) :
  String.length s = String.length t -> x +:+ s = y +:+ t -> s = t.
Proof.
  intros Hl H.
  assert (Hxy : String.length x = String.length y).
  { apply (f_equal String.length) in H. rewrite !length_append in H. lia. }
  revert y H Hxy. induction x as [| c x IH]; intros [| d y] H Hxy;
    try (cbn in Hxy; lia).
  - exact H.
  - change (String c (x +:+ s) = String d (y +:+ t)) in H.
    injection H as _ H. apply (IH y H). cbn in Hxy. lia.
Qed.

Lemma host_name_relative (r : Z) (h suffix : string) :
  startswith (host_name r h suffix) "/" = false.
Proof. reflexivity. Qed.

Lemma join_name_inj (d a b : string) :
  startswith a "/" = false -> startswith b "/" = false ->
  join d [a] = join d [b] -> a = b.
Proof.
  unfold join, join2. cbn [fold_left]. intros -> ->.
  destruct (negb (truthy d) || endswith_char d "/"); intros H.
  - exact (append_inj_l _ _ _ H).
  - apply append_inj_l in H. exact (append_inj_l "/" _ _ H).
Qed.

Lemma host_path_inj (d suffix : string) (r1 r2 : Z) (h1 h2 : string) :
  join d [host_name r1 h1 suffix] = join d [host_name r2 h2 suffix] ->
  r1 = r2 /\ h1 = h2.
Proof.
  intros H. apply join_name_inj in H; auto using host_name_relative.
  exact (host_name_inj _ _ _ _ _ H).
Qed.

Lemma run_script_is_not_stop_script (sd : string) (a b : Z) (ha hb : string) :
  host_run_script_file sd ha a <> host_stop_script_file sd hb b.
Proof.
  unfold host_run_script_file, host_stop_script_file. intros H.
  apply join_name_inj in H; auto using host_name_relative.
  unfold host_name in H.
  rewrite <- !append_assoc in H.
  change "_stop.sh" with ("_" +:+ "stop.sh") in H.
  rewrite <- (append_assoc _ "_" "stop.sh") in H.
  apply tail_of_same_length in H; [discriminate | reflexivity].
Qed.

(** What running a run script does, with no assumption on the
    configuration. *)
Lemma run_script_of_events (env : Env) (config : Config) (host : string) (node_rank : Z)
    (cmd : string) (background with_test : bool) (ld pd : string)
    (read : string -> option string) :
  Sh.run read (run_script_of env config host node_rank cmd background with_test ld pd)
  = setup_events env config
    ++ (if with_test then [Sh.ERun (cmd +:+ "; sync") true None]
        else if background then
               [Sh.ERun (cmd +:+ "; sync") false
                        (Some (host_output_file config ld host node_rank));
                Sh.ERecordPid (host_pid_file pd host node_rank)]
             else [Sh.ERun (cmd +:+ "; sync") true
                           (Some (host_output_file config ld host node_rank))]).
Proof.
  unfold run_script_of. rewrite run_script_events, launch_events. reflexivity.
Qed.

Lemma recorded_pid_file (env : Env) (config : Config) (host : string) (node_rank : Z)
    (cmd : string) (background with_test : bool) (ld pd f : string)
    (read : string -> option string) :
  In (Sh.ERecordPid f)
     (Sh.run read (run_script_of env config host node_rank cmd background with_test ld pd))
  <-> background = true /\ with_test = false /\ f = host_pid_file pd host node_rank.
Proof.
  rewrite run_script_of_events. unfold setup_events.
  destruct with_test, background; cbn [In app]; split;
    intuition (try discriminate; try congruence).
Qed.

Lemma run_output_file (env : Env) (config : Config) (host : string) (node_rank : Z)
    (cmd : string) (background with_test : bool) (ld pd command o : string) (wait : bool)
    (read : string -> option string) :
  In (Sh.ERun command wait (Some o))
     (Sh.run read (run_script_of env config host node_rank cmd background with_test ld pd))
  -> o = host_output_file config ld host node_rank.
Proof.
  rewrite run_script_of_events. unfold setup_events.
  destruct with_test, background; cbn [In app];
    intuition (try discriminate; try congruence).
Qed.

(** X1: the files of two different (rank, host) pairs never collide. The
    run scripts, the stop scripts and the pid files recorded by the run
    scripts have different paths, a run script is never a stop script, and
    the output files differ too unless [no_shared_fs] is true, in which
    case every host appends to the same file. *)
Theorem host_files_do_not_collide (env : Env) (self : NativeCompressBackend)
    (config : Config) (w : World) (ld sd pd : string)
    (h1 h2 : string) (r1 r2 : Z) (cmd1 cmd2 : string) (b1 b2 t1 t2 : bool) :
  log_dir (logging (compress_system config)) = Some ld ->
  scripts_dir (logging (compress_system config)) = Some sd ->
  pids_dir (logging (compress_system config)) = Some pd ->
  (r1, h1) <> (r2, h2) ->
  let prog1 := run_script_of env config h1 r1 cmd1 b1 t1 ld pd in
  let prog2 := run_script_of env config h2 r2 cmd2 b2 t2 ld pd in
  exists run1 run2 stop1 stop2,
    fst (generate_run_script env self config h1 r1 cmd1 b1 t1 w) = inr run1
    /\ fst (generate_run_script env self config h2 r2 cmd2 b2 t2 w) = inr run2
    /\ fst (generate_stop_script env self config h1 r1 w) = inr stop1
    /\ fst (generate_stop_script env self config h2 r2 w) = inr stop2
    /\ run1 <> run2 /\ stop1 <> stop2 /\ run1 <> stop1 /\ run1 <> stop2
    /\ (forall read f1 f2,
          In (Sh.ERecordPid f1) (Sh.run read prog1) ->
          In (Sh.ERecordPid f2) (Sh.run read prog2) -> f1 <> f2)
    /\ (forall read c1 c2 wait1 wait2 o1 o2,
          In (Sh.ERun c1 wait1 (Some o1)) (Sh.run read prog1) ->
          In (Sh.ERun c2 wait2 (Some o2)) (Sh.run read prog2) ->
          if default false (no_shared_fs (runner (experiment config)))
          then o1 = o2 else o1 <> o2).
Proof.
  intros Hld Hsd Hpd Hne prog1 prog2.
  assert (Hpair : forall d suffix,
             join d [host_name r1 h1 suffix] <> join d [host_name r2 h2 suffix]).
  { intros d suffix H. apply host_path_inj in H as [-> ->]. now apply Hne. }
  pose proof (run_script_is_not_stop_script sd) as Hkind.
  unfold host_run_script_file, host_stop_script_file in Hkind.
  exists (host_run_script_file sd h1 r1), (host_run_script_file sd h2 r2),
    (host_stop_script_file sd h1 r1), (host_stop_script_file sd h2 r2).
  rewrite !(generate_run_script_eq _ _ _ _ _ _ _ _ _ ld sd pd Hld Hsd Hpd).
  rewrite !(generate_stop_script_eq _ _ _ _ _ _ sd pd Hsd Hpd).
  cbn [fst]. unfold host_run_script_file, host_stop_script_file.
  do 4 (split; [reflexivity |]).
  do 4 (split; [auto |]).
  split.
  - intros read f1 f2 [_ [_ ->]]%recorded_pid_file [_ [_ ->]]%recorded_pid_file.
    apply Hpair.
  - intros read c1 c2 wait1 wait2 o1 o2 ->%run_output_file ->%run_output_file.
    unfold host_output_file.
    destruct (default false (no_shared_fs (runner (experiment config))));
      [reflexivity | apply Hpair].
Qed.

Lemma host_files_do_not_collide_witness :
  exists run1 run2,
    fst (generate_run_script Sample.env Sample.self
           (Sample.config (Some "compress") None Sample.logging)
           "node-a" 0 "python compress.py" true false
           (Sample.world (Sample.config (Some "compress") None Sample.logging)
                         Sample.empty_fs)) = inr run1
    /\ fst (generate_run_script Sample.env Sample.self
              (Sample.config (Some "compress") None Sample.logging)
              "node-b" 1 "python compress.py" true false
              (Sample.world (Sample.config (Some "compress") None Sample.logging)
                            Sample.empty_fs)) = inr run2
    /\ run1 <> run2.
Proof.
  destruct (host_files_do_not_collide Sample.env Sample.self
              (Sample.config (Some "compress") None Sample.logging)
              (Sample.world (Sample.config (Some "compress") None Sample.logging)
                            Sample.empty_fs)
              "/tmp/exp1/logs" "/tmp/exp1/logs/scripts" "/tmp/exp1/logs/pids"
              "node-a" "node-b" 0 1 "python compress.py" "python compress.py"
              true true false false eq_refl eq_refl eq_refl)
    as (run1 & run2 & _ & _ & H1 & H2 & _ & _ & Hne & _).
  - intros H. discriminate H.
  - exists run1, run2. repeat split; assumption.
Defined.

End HostFiles.

(** ** The generators and the file system *)

Section GeneratedFiles.
Import Py PosixPath Sys Conf Backend.

Lemma makedirs_twice (d : string) (f : FS) : makedirs d (makedirs d f) = makedirs d f.
Proof.
  unfold makedirs. cbn [dirs files]. f_equal.
  apply set_eq. intros x. rewrite !elem_of_union. tauto.
Qed.

Lemma with_script_again (w : World) (sd path t1 t2 : string) :
  with_script (with_script w sd path t1) sd path t2 = with_script w sd path t2.
Proof.
  unfold with_script, write_file, makedirs. cbn [conf fs logged dirs files].
  f_equal. f_equal; [| apply insert_insert_eq].
  apply set_eq. intros x. rewrite !elem_of_union. tauto.
Qed.

(** X2: generating the run script of a host again overwrites the script:
    after two generations for the same configuration, host and rank the
    world is the one the second generation alone gives, whatever command
    and mode the first had. Generating twice with the same arguments is
    the same as generating once. *)
Theorem regenerating_overwrites (env : Env) (self self' : NativeCompressBackend)
    (config : Config) (host : string) (node_rank : Z) (cmd cmd' : string)
    (b b' t t' : bool) (w : World) (ld sd pd : string) :
  log_dir (logging (compress_system config)) = Some ld ->
  scripts_dir (logging (compress_system config)) = Some sd ->
  pids_dir (logging (compress_system config)) = Some pd ->
  Sys.bind (generate_run_script env self config host node_rank cmd b t)
           (fun _ => generate_run_script env self' config host node_rank cmd' b' t') w
  = generate_run_script env self' config host node_rank cmd' b' t' w.
Proof.
  intros Hld Hsd Hpd. unfold bind.
  rewrite !(generate_run_script_eq _ _ _ _ _ _ _ _ _ ld sd pd Hld Hsd Hpd).
  now rewrite with_script_again.
Qed.

Lemma regenerating_overwrites_witness :
  Sys.bind (generate_run_script Sample.env Sample.self
              (Sample.config (Some "compress") None Sample.logging)
              "node-a" 0 "python old.py" false true)
           (fun _ => generate_run_script Sample.env Sample.self
                       (Sample.config (Some "compress") None Sample.logging)
                       "node-a" 0 "python compress.py" true false)
           (Sample.world (Sample.config (Some "compress") None Sample.logging)
                         Sample.empty_fs)
  = generate_run_script Sample.env Sample.self
      (Sample.config (Some "compress") None Sample.logging)
      "node-a" 0 "python compress.py" true false
      (Sample.world (Sample.config (Some "compress") None Sample.logging) Sample.empty_fs).
Proof.
  apply (regenerating_overwrites Sample.env Sample.self Sample.self
           (Sample.config (Some "compress") None Sample.logging)
           "node-a" 0 "python old.py" "python compress.py" false true true false
           (Sample.world (Sample.config (Some "compress") None Sample.logging)
                         Sample.empty_fs)
           "/tmp/exp1/logs" "/tmp/exp1/logs/scripts" "/tmp/exp1/logs/pids");
    reflexivity.
Defined.

(** When a generator returns, the three directories it reads were set. *)
Lemma generate_run_script_inr (env : Env) (self : NativeCompressBackend) (config : Config)
    (host : string) (node_rank : Z) (cmd : string) (b t : bool) (w w' : World)
    (path : string) :
  generate_run_script env self config host node_rank cmd b t w = (inr path, w') ->
  exists ld sd pd,
    log_dir (logging (compress_system config)) = Some ld
    /\ scripts_dir (logging (compress_system config)) = Some sd
    /\ pids_dir (logging (compress_system config)) = Some pd.
Proof.
  unfold generate_run_script, bind, as_path, ret, raise.
  destruct (log_dir _) as [ld |]; [| discriminate].
  destruct (scripts_dir _) as [sd |]; [| discriminate].
  destruct (pids_dir _) as [pd |]; [| discriminate].
  intros _. exists ld, sd, pd. repeat split.
Qed.

(** X3: a generation of a run script touches the script and nothing else.
    The configuration and the log are as before; every directory that
    existed still exists and the scripts directory exists afterwards;
    every file other than the script is as before; the script is written
    with mode 0o755. *)
Theorem generate_run_script_frame (env : Env) (self : NativeCompressBackend)
    (config : Config) (host : string) (node_rank : Z) (cmd : string) (b t : bool)
    (w w' : World) (path : string) :
  generate_run_script env self config host node_rank cmd b t w = (inr path, w') ->
  conf w' = conf w
  /\ logged w' = logged w
  /\ dirs (fs w) ⊆ dirs (fs w')
  /\ (forall sd, scripts_dir (logging (compress_system config)) = Some sd ->
                 path_exists (fs w') sd = true)
  /\ (forall q, q <> path -> files (fs w') !! q = files (fs w) !! q)
  /\ (exists text, files (fs w') !! path = Some {| content := text; mode := 493 |}).
Proof.
  intros H.
  destruct (generate_run_script_inr _ _ _ _ _ _ _ _ _ _ _ H) as (ld & sd & pd & Hld & Hsd & Hpd).
  rewrite (generate_run_script_eq _ _ _ _ _ _ _ _ _ ld sd pd Hld Hsd Hpd) in H.
  injection H as <- <-.
  split; [reflexivity |]. split; [reflexivity |].
  split; [cbn; intros x Hx; rewrite !elem_of_union; tauto |].
  split.
  { intros sd' Hsd'. rewrite Hsd in Hsd'. injection Hsd' as <-.
    unfold path_exists. cbn [with_script fs write_file makedirs dirs].
    rewrite bool_decide_eq_true_2; [reflexivity |].
    rewrite !elem_of_union, elem_of_singleton. tauto. }
  split.
  { intros q Hq. cbn [with_script fs write_file files].
    now rewrite lookup_insert_ne. }
  eexists. apply with_script_lookup.
Qed.

Lemma generate_run_script_frame_witness :
  files (fs (snd (generate_run_script Sample.env Sample.self
                    (Sample.config (Some "compress") None Sample.logging)
                    "node-a" 0 "python compress.py" true false
                    (Sample.world (Sample.config (Some "compress") None Sample.logging)
                                  Sample.hostfile_fs))))
  !! "/tmp/hostfile"
  = files Sample.hostfile_fs !! "/tmp/hostfile".
Proof.
  pose proof (generate_run_script_eq Sample.env Sample.self
                (Sample.config (Some "compress") None Sample.logging)
                "node-a" 0 "python compress.py" true false
                (Sample.world (Sample.config (Some "compress") None Sample.logging)
                              Sample.hostfile_fs)
                "/tmp/exp1/logs" "/tmp/exp1/logs/scripts" "/tmp/exp1/logs/pids"
                eq_refl eq_refl eq_refl) as Hrun.
  destruct (generate_run_script_frame _ _ _ _ _ _ _ _ _ _ _ Hrun)
    as (_ & _ & _ & _ & Hother & _).
  rewrite Hrun. apply Hother. discriminate.
Defined.




End GeneratedFiles.

(** ** Preparing the backend *)

Section Preparation.
Import Py PosixPath Sys Conf Utils Backend.

(** The logging configuration [_update_config_compress] leaves. *)
Lemma update_config_eq (env : Env) (w : World) :
  let exp := resolve (cwd env) (exp_dir (experiment (conf w))) in
  let l0 := logging (compress_system (conf w)) in
  let ld := match log_dir l0 with
            | Some d => resolve (cwd env) d
            | None => join exp ["compress_logs"]
            end in
  let tb := if given (tensorboard_dir l0)
            then resolve (cwd env) (str_of_opt (tensorboard_dir l0))
            else join exp ["tensorboard"] in
  let wb := if given (wandb_save_dir l0)
            then resolve (cwd env) (str_of_opt (wandb_save_dir l0))
            else join exp ["wandb"] in
  _update_config_compress env w
  = (inr tt,
     {| conf := set_logging (conf w)
                  {| log_dir := Some ld;
                     scripts_dir := Some (join ld ["scripts"]);
                     pids_dir := Some (join ld ["pids"]);
                     tensorboard_dir := Some tb;
                     wandb_save_dir := Some wb |};
        fs := makedirs exp (fs w);
        logged := logged w |}).
Proof.
  intros exp l0 ld tb wb. subst exp l0 ld tb wb.
  unfold _update_config_compress, setup_exp_dir.
  unfold bind at 1. unfold get_conf at 1.
  unfold bind at 1. unfold bind at 1. rewrite resolve_path_plain.
  unfold bind at 1. unfold modify_fs at 1. unfold ret at 1.
  unfold bind at 1. unfold set_conf at 1.
  cbn [setup_logging_dirs snd tensorboard_dir wandb_save_dir set_tensorboard_dir].
  unfold bind at 1.
  destruct (given (tensorboard_dir (logging (compress_system (conf w)))));
    [rewrite resolve_path_plain | unfold ret at 1];
    (unfold bind at 1; unfold set_conf at 1; unfold bind at 1);
    (destruct (given (wandb_save_dir (logging (compress_system (conf w)))));
     [rewrite resolve_path_plain | unfold ret at 1]);
    unfold set_conf; reflexivity.
Qed.

Lemma isabs_truthy (p : string) : isabs p = true -> truthy p = true.
Proof. intros [r ->]%isabs_inv. reflexivity. Qed.

Lemma given_absolute (p : string) : isabs p = true -> given (Some p) = true.
Proof. exact (isabs_truthy p). Qed.

Lemma isabs_log_choice (env : Env) (exp : string) (o : option string) (name : string) :
  isabs (cwd env) = true -> isabs exp = true ->
  isabs (match o with
         | Some d => resolve (cwd env) d
         | None => join exp [name]
         end) = true.
Proof. intros Hcwd Hexp. destruct o; auto using isabs_resolve, isabs_join. Qed.

Lemma isabs_dir_choice (env : Env) (exp : string) (o : option string) (name : string) :
  isabs (cwd env) = true -> isabs exp = true ->
  isabs (if given o then resolve (cwd env) (str_of_opt o) else join exp [name]) = true.
Proof. intros Hcwd Hexp. destruct (given o); auto using isabs_resolve, isabs_join. Qed.

Lemma makedirs_exists (d : string) (f : FS) : path_exists (makedirs d f) d = true.
Proof.
  unfold path_exists, makedirs. cbn [dirs].
  rewrite bool_decide_eq_true_2; [reflexivity |].
  rewrite !elem_of_union, elem_of_singleton. tauto.
Qed.

(** X6: [_update_config_compress] always returns; with the working
    directory an absolute path, it leaves the five logging directories set
    to absolute paths, [scripts_dir] and [pids_dir] under [log_dir], and
    the experiment directory in existence; it changes neither the
    experiment part of the configuration nor [save_dir] nor the log; an
    empty [tensorboard_dir] or [wandb_save_dir] counts as not given; and
    running it a second time changes nothing. *)
Theorem update_config_settles (env : Env) (w : World) :
  isabs (cwd env) = true ->
  exists w1 ld tb wb,
    _update_config_compress env w = (inr tt, w1)
    /\ _update_config_compress env w1 = (inr tt, w1)
    /\ logging (compress_system (conf w1))
       = {| log_dir := Some ld;
            scripts_dir := Some (join ld ["scripts"]);
            pids_dir := Some (join ld ["pids"]);
            tensorboard_dir := Some tb;
            wandb_save_dir := Some wb |}
    /\ isabs ld = true /\ isabs (join ld ["scripts"]) = true
    /\ isabs (join ld ["pids"]) = true /\ isabs tb = true /\ isabs wb = true
    /\ path_exists (fs w1) (resolve (cwd env) (exp_dir (experiment (conf w)))) = true
    /\ experiment (conf w1) = experiment (conf w)
    /\ save_dir (compress_system (conf w1)) = save_dir (compress_system (conf w))
    /\ logged w1 = logged w
    /\ (tensorboard_dir (logging (compress_system (conf w))) = Some EmptyString ->
        tb = join (resolve (cwd env) (exp_dir (experiment (conf w)))) ["tensorboard"])
    /\ (wandb_save_dir (logging (compress_system (conf w))) = Some EmptyString ->
        wb = join (resolve (cwd env) (exp_dir (experiment (conf w)))) ["wandb"]).
Proof.
  intros Hcwd.
  pose proof (update_config_eq env w) as Hrun. cbv zeta in Hrun.
  assert (Hexp : isabs (resolve (cwd env) (exp_dir (experiment (conf w)))) = true)
    by (apply isabs_resolve, Hcwd).
  pose proof (isabs_log_choice env _ (log_dir (logging (compress_system (conf w))))
                "compress_logs" Hcwd Hexp) as Hld.
  pose proof (isabs_dir_choice env _ (tensorboard_dir (logging (compress_system (conf w))))
                "tensorboard" Hcwd Hexp) as Htb.
  pose proof (isabs_dir_choice env _ (wandb_save_dir (logging (compress_system (conf w))))
                "wandb" Hcwd Hexp) as Hwb.
  eexists _, _, _, _. split; [exact Hrun |].
  split.
  { rewrite update_config_eq.
    cbn [conf fs logged set_logging experiment compress_system
         logging save_dir log_dir tensorboard_dir wandb_save_dir].
    rewrite (given_absolute _ Htb), (given_absolute _ Hwb). cbn [str_of_opt].
    rewrite (resolve_absolute _ _ Hld), (resolve_absolute _ _ Htb),
      (resolve_absolute _ _ Hwb).
    rewrite makedirs_twice. reflexivity. }
  split; [reflexivity |].
  do 5 (split; [auto using isabs_join |]).
  split; [apply makedirs_exists |].
  do 3 (split; [reflexivity |]).
  split; intros H; rewrite H; reflexivity.
Qed.

Lemma update_config_settles_witness :
  exists w1,
    _update_config_compress Sample.env
      (Sample.world (Sample.config (Some "compress") None Sample.raw_logging) Sample.empty_fs)
    = (inr tt, w1)
    /\ _update_config_compress Sample.env w1 = (inr tt, w1).
Proof.
  destruct (update_config_settles Sample.env
              (Sample.world (Sample.config (Some "compress") None Sample.raw_logging)
                            Sample.empty_fs) eq_refl)
    as (w1 & ld & tb & wb & H1 & H2 & _).
  exists w1. split; assumption.
Defined.

(** The three ways [_prepare] ends. *)
Lemma prepare_cases (env : Env) (t : option string) (w : World) :
  let w1 := snd (_update_config_compress env w) in
  let p := resolve (cwd env)
             (join (hydra_output_dir env)
                   [str_of_opt (hydra_output_subdir env) +:+ "/config.yaml"]) in
  let done (hosts : list HostEntry) :=
    (inr {| task_type := t;
            user_args := ["--config-path=" +:+ p];
            rdzv_id := now env;
            user_envs := default [] (envs (experiment (conf w)));
            cur_envs := None;
            user_script := entrypoint (task (experiment (conf w)));
            resources := hosts |},
     {| conf := conf w1; fs := fs w1;
        logged := (logged w ++ [nl +:+ "************** configuration **************"])
                  ++ [nl +:+ to_yaml env (conf w1)] |}) in
  _prepare env t w
  = if path_exists (fs w1) p then
      match hostfile (runner (experiment (conf w))) with
      | None => done [local_entry]
      | Some h =>
          match files (fs w) !! h with
          | Some f => done (read_hosts env 0 (split_on (ascii_of_nat 10) (content f)))
          | None => (inl (FileNotFoundError ("Hostfile not found: " +:+ h)), w1)
          end
      end
    else (inl (FileNotFoundError (missing_msg "hydra.config_path" p)), w1).
Proof.
  intros w1 p done. subst w1 p done.
  unfold _prepare. unfold bind at 1.
  rewrite update_config_eq. cbn [snd].
  unfold bind at 1. unfold _get_args_llmcompressor, resolve_path.
  unfold bind at 1. unfold bind at 1. unfold get_fs at 1.
  cbn [andb fs].
  destruct (path_exists _ _); cbn [negb]; [| reflexivity].
  unfold ret at 1. unfold ret at 1.
  unfold bind at 1. unfold get_conf at 1.
  unfold bind at 1. cbn [conf set_logging experiment].
  unfold parse_hostfile.
  destruct (hostfile (runner (experiment (conf w)))) as [h |].
  - unfold bind at 1. unfold get_fs at 1. cbn [fs makedirs files].
    destruct (files (fs w) !! h); reflexivity.
  - reflexivity.
Qed.

Lemma init_compress_eq (env : Env) (w : World) :
  type (task (experiment (conf w))) = Some "compress" ->
  __init__ env w = _prepare env (Some "compress") w.
Proof.
  intros Ht. unfold __init__, BackendBase__init__, bind, ret, get_conf.
  rewrite Ht. now rewrite bool_decide_eq_true_2.
Qed.

(** X7: a construction that fails after the task type was accepted is
    not rolled back. When [__init__] raises for a configuration of type
    ["compress"], the world it leaves is the one
    [_update_config_compress] made: the experiment directory exists and
    the logging directories are written into the configuration object;
    nothing was logged. *)
Theorem failed_construction_keeps_preparation (env : Env) (w w' : World) (e : exn) :
  type (task (experiment (conf w))) = Some "compress" ->
  __init__ env w = (inl e, w') ->
  _update_config_compress env w = (inr tt, w')
  /\ path_exists (fs w') (resolve (cwd env) (exp_dir (experiment (conf w)))) = true
  /\ is_Some (log_dir (logging (compress_system (conf w'))))
  /\ is_Some (scripts_dir (logging (compress_system (conf w'))))
  /\ is_Some (pids_dir (logging (compress_system (conf w'))))
  /\ logged w' = logged w.
Proof.
  intros Ht Hinit. rewrite (init_compress_eq _ _ Ht) in Hinit.
  pose proof (prepare_cases env (Some "compress") w) as Hcases. cbv zeta in Hcases.
  rewrite Hcases in Hinit. clear Hcases.
  assert (Hw : w' = snd (_update_config_compress env w)).
  { destruct (path_exists _ _); [| now injection Hinit].
    destruct (hostfile _) as [h |]; [| discriminate].
    destruct (files (fs w) !! h); [discriminate | now injection Hinit]. }
  subst w'. rewrite update_config_eq. cbn [snd conf fs logged].
  split; [reflexivity |].
  split; [apply makedirs_exists |].
  repeat split; eauto.
Qed.

Lemma failed_construction_keeps_preparation_witness :
  exists w',
    __init__ Sample.env
      (Sample.world (Sample.config (Some "compress") None Sample.raw_logging)
                    Sample.empty_fs)
    = (inl (FileNotFoundError
              "Config 'hydra.config_path' path does not exist: /tmp/exp1/hydra/.hydra/config.yaml"),
       w')
    /\ path_exists (fs w') "/tmp/exp1" = true
    /\ log_dir (logging (compress_system (conf w'))) = Some "/tmp/exp1/compress_logs".
Proof.
  exists (snd (_update_config_compress Sample.env
                 (Sample.world (Sample.config (Some "compress") None Sample.raw_logging)
                               Sample.empty_fs))).
  assert (Hinit : __init__ Sample.env
                    (Sample.world (Sample.config (Some "compress") None Sample.raw_logging)
                                  Sample.empty_fs)
                  = (inl (FileNotFoundError
                            "Config 'hydra.config_path' path does not exist: /tmp/exp1/hydra/.hydra/config.yaml"),
                     snd (_update_config_compress Sample.env
                            (Sample.world
                               (Sample.config (Some "compress") None Sample.raw_logging)
                               Sample.empty_fs)))).
  { vm_compute. reflexivity. }
  split; [exact Hinit |].
  destruct (failed_construction_keeps_preparation Sample.env
              (Sample.world (Sample.config (Some "compress") None Sample.raw_logging)
                            Sample.empty_fs)
              _ _ eq_refl Hinit)
    as (_ & Hexists & _).
  split; [exact Hexists | reflexivity].
Defined.

(** X8: what a constructed backend holds. When [__init__] returns, the
    task type is ["compress"]; [user_args] is the single argument
    [--config-path=<p>], [p] being the Hydra configuration file, which
    exists; [user_envs] is [experiment.envs], or empty when that is not
    given; [resources] is the local entry without a hostfile and the
    entries read from the hostfile otherwise; and two lines were logged,
    the second the configuration as it was left. *)
Theorem constructed_backend (env : Env) (w w' : World) (backend : NativeCompressBackend) :
  __init__ env w = (inr backend, w') ->
  let p := resolve (cwd env)
             (join (hydra_output_dir env)
                   [str_of_opt (hydra_output_subdir env) +:+ "/config.yaml"]) in
  type (task (experiment (conf w))) = Some "compress"
  /\ task_type backend = Some "compress"
  /\ user_args backend = ["--config-path=" +:+ p]
  /\ path_exists (fs w') p = true
  /\ user_envs backend = default [] (envs (experiment (conf w)))
  /\ cur_envs backend = None
  /\ user_script backend = entrypoint (task (experiment (conf w)))
  /\ rdzv_id backend = now env
  /\ match hostfile (runner (experiment (conf w))) with
     | None => resources backend = [local_entry]
     | Some h =>
         exists f, files (fs w) !! h = Some f
                   /\ resources backend
                      = read_hosts env 0 (split_on (ascii_of_nat 10) (content f))
     end
  /\ logged w'
     = logged w ++ [nl +:+ "************** configuration **************";
                    nl +:+ to_yaml env (conf w')]
  /\ fst (_update_config_compress env w) = inr tt
  /\ conf w' = conf (snd (_update_config_compress env w))
  /\ fs w' = fs (snd (_update_config_compress env w)).
Proof.
  intros Hinit p.
  assert (Ht : type (task (experiment (conf w))) = Some "compress").
  { revert Hinit. unfold __init__, BackendBase__init__, bind, ret, get_conf.
    destruct (bool_decide _) eqn:Hd; [| discriminate].
    intros _. now apply bool_decide_eq_true_1 in Hd. }
  rewrite (init_compress_eq _ _ Ht) in Hinit.
  pose proof (prepare_cases env (Some "compress") w) as Hcases. cbv zeta in Hcases.
  rewrite Hcases in Hinit. clear Hcases. fold p in Hinit.
  split; [exact Ht |].
  destruct (path_exists _ p) eqn:Hp; [| discriminate].
  destruct (hostfile _) as [h |].
  - destruct (files (fs w) !! h) as [f |] eqn:Hf; [| discriminate].
    injection Hinit as <- <-.
    cbn [task_type user_args rdzv_id user_envs cur_envs user_script resources
         conf fs logged].
    rewrite <- app_assoc.
    repeat split; eauto; rewrite update_config_eq; reflexivity.
  - injection Hinit as <- <-.
    cbn [task_type user_args rdzv_id user_envs cur_envs user_script resources
         conf fs logged].
    rewrite <- app_assoc.
    repeat split; eauto; rewrite update_config_eq; reflexivity.
Qed.

Lemma constructed_backend_witness :
  exists backend w',
    __init__ Sample.env
      (Sample.world (Sample.config (Some "compress") None Sample.raw_logging)
                    Sample.hydra_fs)
    = (inr backend, w')
    /\ user_args backend = ["--config-path=/tmp/exp1/hydra/.hydra/config.yaml"]
    /\ resources backend = [local_entry].
Proof.
  destruct (__init__ Sample.env
              (Sample.world (Sample.config (Some "compress") None Sample.raw_logging)
                            Sample.hydra_fs)) as [[e | backend] w'] eqn:Hinit;
    [vm_compute in Hinit; discriminate Hinit |].
  exists backend, w'. split; [reflexivity |].
  destruct (constructed_backend _ _ _ _ Hinit) as (_ & _ & Hargs & _ & _ & _ & _ & _ & Hres & _).
  split; [exact Hargs | exact Hres].
Defined.

End Preparation.

(** ** Running a task from the command line *)

Section RunTask.
Import Py PosixPath Sys Pathlib Commands CliCommands.

Lemma run_task_eq (h : Host) (config_path config_name action : string)
    (extra_args : option (list string)) (p : Proc) :
  let args := main_args config_path config_name action (default [] extra_args) in
  let pm := after_main h p args in
  run_task h config_path config_name action extra_args p
  = match fst (run_main h args (pfs p)) with
    | None => (inr tt, pm)
    | Some (SystemExit code) =>
        (if code_is_failure code then inl (Foreign (SystemExit code)) else inr tt, pm)
    | Some (AnException e) =>
        (inl (TyperExit 1),
         showing pm
           [ {| to := Stderr; fg := Some "red";
                text := "Config error in: " +:+ config_path +:+ "/" +:+ config_name
                        +:+ ".yaml" |};
             {| to := Stderr; fg := Some "red"; text := "Error: " +:+ e |};
             {| to := Stderr; fg := Some "yellow";
                text := "Hint: Check that the config file exists, all defaults are "
                        +:+ "resolvable, and required fields are present." |} ])
    | Some (ABaseException n) => (inl (Foreign (ABaseException n)), pm)
    end.
Proof.
  intros args pm.
  assert (Hargs : match extra_args with
                  | Some (x :: rest) =>
                      [ "run.py"; "--config-path=" +:+ config_path;
                        "--config-name=" +:+ config_name; "action=" +:+ action ]
                      ++ x :: rest
                  | _ => [ "run.py"; "--config-path=" +:+ config_path;
                           "--config-name=" +:+ config_name; "action=" +:+ action ]
                  end = args).
  { subst args. unfold main_args. destruct extra_args as [[| x rest] |]; reflexivity. }
  unfold run_task. rewrite Hargs.
  unfold cbind, set_argv, call_main. cbn [pfs shown argv calls fst snd].
  subst pm. unfold after_main.
  destruct (run_main h args (pfs p)) as [[[code | e | n] |] f]; cbn [fst snd].
  - destruct (code_is_failure code); reflexivity.
  - unfold _handle_config_error, cbind, echo, exit, cfail, showing.
    cbn [pfs shown argv calls]. rewrite <- !app_assoc. reflexivity.
  - reflexivity.
  - reflexivity.
Qed.

Lemma run_task_calls (h : Host) (config_path config_name action : string)
    (extra_args : option (list string)) (p : Proc) :
  calls (snd (run_task h config_path config_name action extra_args p))
  = calls p ++ [CallMain (main_args config_path config_name action (default [] extra_args))].
Proof.
  pose proof (run_task_eq h config_path config_name action extra_args p) as Heq.
  cbv zeta in Heq. rewrite Heq.
  destruct (fst (run_main h _ (pfs p))) as [[code | e | n] |]; reflexivity.
Qed.



End RunTask.

(** ** The task commands *)

Section TaskCommands.
Import Py PosixPath Sys Pathlib Commands CliCommands.

Lemma showing_nil (p : Proc) : showing p [] = p.
Proof. destruct p. unfold showing. cbn. now rewrite app_nil_r. Qed.

Lemma showing_showing (p : Proc) (a b : list Echo) :
  showing (showing p a) b = showing p (a ++ b).
Proof. unfold showing. cbn. now rewrite app_assoc. Qed.

Lemma echo_eq (s : stream) (c : option string) (t : string) (p : Proc) :
  echo s c t p = (inr tt, showing p [{| to := s; fg := c; text := t |}]).
Proof. reflexivity. Qed.

Lemma resolve_config_eq (h : Host) (model_name : string) (yaml_path : option Path)
    (task : string) (p : Proc) :
  let file := looked_up h model_name yaml_path task in
  resolve_config h model_name yaml_path task p
  = if path_exists (pfs p) (locate (hcwd h) file)
    then (inr (to_str (parent file), stem file), p)
    else (inl (TyperExit 1),
          showing p [on_stderr ("Error: " +:+ to_str file +:+ " does not exist")]).
Proof.
  intros file. subst file. unfold resolve_config, looked_up.
  destruct yaml_path as [y |]; unfold cbind, path_is_there;
    destruct (path_exists _ _); reflexivity.
Qed.

(** [get_action] inside a command. *)
Lemma lift_get_action_many (stop dryrun test query tune : bool) (p : Proc) :
  2 <= Cli.count_set [stop; dryrun; test; query; tune] ->
  lift (Cli.get_action stop dryrun test query tune) p
  = (inl (TyperExit 1),
     showing p [on_stderr (Cli.exclusive_msg
                             (Cli.set_flags (Cli.flags stop dryrun test query tune)))]).
Proof.
  intros Hn. destruct stop, dryrun, test, query, tune; cbv in Hn; try lia; reflexivity.
Qed.

Lemma lift_get_action_one (stop dryrun test query tune : bool) (p : Proc) :
  Cli.count_set [stop; dryrun; test; query; tune] <= 1 ->
  exists action,
    Cli.result (Cli.get_action stop dryrun test query tune) = inr action
    /\ lift (Cli.get_action stop dryrun test query tune) p = (inr action, p).
Proof.
  intros Hn. destruct p as [f sh av cl].
  destruct stop, dryrun, test, query, tune; cbv in Hn; try lia;
    (eexists; split; [reflexivity |]);
    unfold lift; cbn; rewrite app_nil_r; reflexivity.
Qed.

(** X10: [train] checks before it runs. With two or more flags set the
    command ends with [typer.Exit(1)] after the one line of [get_action]
    on standard error; with consistent flags and no configuration file it
    ends with [typer.Exit(1)] after one line naming the file; in both cases
    [run_main] is not called and [sys.argv] and the file system are as
    before. Otherwise three lines go to standard output and the command
    ends as [run_task] does, for the directory and stem of the file and
    the action of the flags. *)
Theorem train_checks_before_running (h : Host) (model : string) (config : option Path)
    (stop dryrun test query tune : bool) (p : Proc) :
  let n := Cli.count_set [stop; dryrun; test; query; tune] in
  let file := looked_up h model config "train" in
  let r := train h model config stop dryrun test query tune p in
  (2 <= n ->
   r = (inl (TyperExit 1),
        showing p [on_stderr (Cli.exclusive_msg
                                (Cli.set_flags (Cli.flags stop dryrun test query tune)))]))
  /\ (n <= 1 -> path_exists (pfs p) (locate (hcwd h) file) = false ->
      r = (inl (TyperExit 1),
           showing p [on_stderr ("Error: " +:+ to_str file +:+ " does not exist")]))
  /\ (n <= 1 -> path_exists (pfs p) (locate (hcwd h) file) = true ->
      exists action,
        Cli.result (Cli.get_action stop dryrun test query tune) = inr action
        /\ r = run_task h (to_str (parent file)) (stem file) action None
                 (showing p [ on_stdout ("Train " +:+ model +:+ " [" +:+ action +:+ "]");
                              on_stdout ("config_path: " +:+ to_str (parent file));
                              on_stdout ("config_name: " +:+ stem file) ]))
  /\ (calls (snd r) = calls p
      \/ exists args, calls (snd r) = calls p ++ [CallMain args]
                      /\ n <= 1 /\ path_exists (pfs p) (locate (hcwd h) file) = true).
Proof.
  intros n file r.
  assert (Hmany : 2 <= n ->
            r = (inl (TyperExit 1),
                 showing p [on_stderr (Cli.exclusive_msg
                              (Cli.set_flags (Cli.flags stop dryrun test query tune)))])).
  { intros Hn. subst r. unfold train, cbind.
    now rewrite (lift_get_action_many _ _ _ _ _ p Hn). }
  assert (Hmissing : n <= 1 -> path_exists (pfs p) (locate (hcwd h) file) = false ->
            r = (inl (TyperExit 1),
                 showing p [on_stderr ("Error: " +:+ to_str file +:+ " does not exist")])).
  { intros Hn Hfile. subst r. unfold train, cbind.
    destruct (lift_get_action_one _ _ _ _ _ p Hn) as (action & _ & ->).
    rewrite resolve_config_eq. cbv zeta. fold file. now rewrite Hfile. }
  assert (Hfound : n <= 1 -> path_exists (pfs p) (locate (hcwd h) file) = true ->
            exists action,
              Cli.result (Cli.get_action stop dryrun test query tune) = inr action
              /\ r = run_task h (to_str (parent file)) (stem file) action None
                       (showing p [ on_stdout ("Train " +:+ model +:+ " [" +:+ action +:+ "]");
                                    on_stdout ("config_path: " +:+ to_str (parent file));
                                    on_stdout ("config_name: " +:+ stem file) ])).
  { intros Hn Hfile.
    destruct (lift_get_action_one _ _ _ _ _ p Hn) as (action & Hact & Hlift).
    exists action. split; [exact Hact |].
    subst r. unfold train, cbind. rewrite Hlift.
    rewrite resolve_config_eq. cbv zeta. fold file. rewrite Hfile.
    rewrite !echo_eq, !showing_showing. reflexivity. }
  split; [exact Hmany |]. split; [exact Hmissing |]. split; [exact Hfound |].
  destruct (Nat.leb_spec 2 n) as [Hn | Hn].
  - left. rewrite (Hmany Hn). reflexivity.
  - assert (Hn' : n <= 1) by lia.
    destruct (path_exists (pfs p) (locate (hcwd h) file)) eqn:Hfile.
    + right. destruct (Hfound Hn' eq_refl) as (action & _ & Hr).
      eexists. split; [| split; [exact Hn' | reflexivity]].
      rewrite Hr, run_task_calls. reflexivity.
    + left. rewrite (Hmissing Hn' eq_refl). reflexivity.
Qed.

Lemma train_checks_before_running_witness :
  exists action,
    Cli.result (Cli.get_action false false false false false) = inr action
    /\ train (sample_host None (fun _ => 0%Z)) "aquila" None false false false false false
             sample_proc
       = run_task (sample_host None (fun _ => 0%Z)) "/repo/examples/aquila/conf" "train"
                  action None
                  (showing sample_proc
                     [ on_stdout ("Train aquila [" +:+ action +:+ "]");
                       on_stdout "config_path: /repo/examples/aquila/conf";
                       on_stdout "config_name: train" ]).
Proof.
  destruct (train_checks_before_running (sample_host None (fun _ => 0%Z)) "aquila" None
              false false false false false sample_proc)
    as (_ & _ & Hfound & _).
  destruct Hfound as (action & Hact & Hrun); [cbv; lia | vm_compute; reflexivity |].
  exists action. split; [exact Hact | exact Hrun].
Defined.

(** X11: [serve] does not reject flags, it ranks them: [stop] before
    [test] before [tune]. Its outcome is the outcome for the single flag of
    highest rank, and with at most one flag set the action is the one
    [get_action] gives. A port of 0, an empty model path and empty engine
    arguments are dropped like absent ones. With the configuration file in
    place [run_main] is called once, with the action and the extra
    arguments in the order port, model path, engine arguments. *)
Theorem serve_ranks_flags (h : Host) (model : string) (config : option Path)
    (stop test tune : bool) (port : option Z) (model_path engine_args : option string)
    (p : Proc) :
  let action :=
    if stop then "stop" else if test then "test" else if tune then "auto_tune" else "run" in
  let extra :=
    (if int_given port
     then ["+experiment.runner.cli_args.port=" +:+ str_of_int (default 0%Z port)] else [])
    ++ (if str_given model_path
        then ["+experiment.runner.cli_args.model_path=" +:+ str_of_opt model_path] else [])
    ++ (if str_given engine_args
        then ["+experiment.runner.cli_args.engine_args='" +:+ str_of_opt engine_args +:+ "'"]
        else []) in
  let file := looked_up h model config "serve" in
  let r := serve h model config stop test tune port model_path engine_args p in
  r = serve h model config stop (test && negb stop) (tune && negb stop && negb test)
            port model_path engine_args p
  /\ r = serve h model config stop test tune
               (if int_given port then port else None)
               (if str_given model_path then model_path else None)
               (if str_given engine_args then engine_args else None) p
  /\ (Cli.count_set [stop; test; tune] <= 1 ->
      Cli.result (Cli.get_action stop false test false tune) = inr action)
  /\ (path_exists (pfs p) (locate (hcwd h) file) = true ->
      calls (snd r)
      = calls p ++ [CallMain (main_args (to_str (parent file)) (stem file) action extra)])
  /\ (path_exists (pfs p) (locate (hcwd h) file) = false ->
      r = (inl (TyperExit 1),
           showing p [on_stderr ("Error: " +:+ to_str file +:+ " does not exist")])).
Proof.
  intros action extra file r.
  split; [subst r; destruct stop, test, tune; reflexivity |].
  split.
  { subst r.
    destruct (int_given port) eqn:Hp, (str_given model_path) eqn:Hm,
      (str_given engine_args) eqn:He;
      unfold serve; rewrite ?Hp, ?Hm, ?He; cbn [int_given str_given]; reflexivity. }
  split; [subst action; destruct stop, test, tune; intros Hn; cbv in Hn; try lia; reflexivity |].
  split.
  - intros Hfile. subst r. unfold serve, cbind.
    rewrite resolve_config_eq. cbv zeta. fold file. rewrite Hfile.
    rewrite !echo_eq.
    assert (Hextra : forall q,
               calls (snd (run_task h (to_str (parent file)) (stem file) action
                             (Some extra) q))
               = calls q ++ [CallMain (main_args (to_str (parent file)) (stem file)
                                                 action extra)]).
    { intros q. now rewrite run_task_calls. }
    subst action extra.
    destruct stop, test, tune; cbn [String.eqb Ascii.eqb Bool.eqb andb];
      rewrite ?echo_eq; unfold cret;
      destruct (int_given port), (str_given model_path), (str_given engine_args);
      cbn [app fst snd]; cbn [app] in Hextra; rewrite Hextra; reflexivity.
  - intros Hfile. subst r. unfold serve, cbind.
    rewrite resolve_config_eq. cbv zeta. fold file. now rewrite Hfile.
Qed.

Lemma serve_ranks_flags_witness :
  Cli.result (Cli.get_action false false true false false) = inr "test"
  /\ serve (sample_host None (fun _ => 0%Z)) "aquila" None true true true
           (Some 0%Z) (Some EmptyString) None sample_proc
     = (inl (TyperExit 1),
        showing sample_proc
          [on_stderr "Error: /repo/examples/aquila/conf/serve.yaml does not exist"]).
Proof.
  destruct (serve_ranks_flags (sample_host None (fun _ => 0%Z)) "aquila" None
              false true false None None None sample_proc)
    as (_ & _ & Hact & _).
  destruct (serve_ranks_flags (sample_host None (fun _ => 0%Z)) "aquila" None
              true true true (Some 0%Z) (Some EmptyString) None sample_proc)
    as (_ & _ & _ & _ & Hmissing).
  split; [apply Hact; cbv; lia | apply Hmissing; vm_compute; reflexivity].
Defined.

(** X12: [compress] ranks its two flags too, [stop] before [dryrun]: its
    outcome is the one for the flag of highest rank, the action is the one
    [get_action] gives when at most one flag is set, and with the
    configuration file in place [run_main] is called once with that
    action and no extra argument. *)
Theorem compress_ranks_flags (h : Host) (model : string) (config : option Path)
    (stop dryrun : bool) (p : Proc) :
  let action := if stop then "stop" else if dryrun then "dryrun" else "run" in
  let file := looked_up h model config "compress" in
  let r := compress h model config stop dryrun p in
  r = compress h model config stop (dryrun && negb stop) p
  /\ (Cli.count_set [stop; dryrun] <= 1 ->
      Cli.result (Cli.get_action stop dryrun false false false) = inr action)
  /\ (path_exists (pfs p) (locate (hcwd h) file) = true ->
      calls (snd r)
      = calls p ++ [CallMain (main_args (to_str (parent file)) (stem file) action [])]
      /\ shown (snd (compress h model config stop dryrun p))
         = shown (snd (run_task h (to_str (parent file)) (stem file) action None
                         (showing p [on_stdout ("Compress " +:+ model +:+ " [" +:+ action
                                                +:+ "]")]))))
  /\ (path_exists (pfs p) (locate (hcwd h) file) = false ->
      r = (inl (TyperExit 1),
           showing p [on_stderr ("Error: " +:+ to_str file +:+ " does not exist")])).
Proof.
  intros action file r.
  split; [subst r; destruct stop, dryrun; reflexivity |].
  split; [subst action; destruct stop, dryrun; intros Hn; cbv in Hn; try lia; reflexivity |].
  split.
  - intros Hfile. subst r. unfold compress, cbind.
    rewrite resolve_config_eq. cbv zeta. fold file. rewrite Hfile.
    rewrite !echo_eq. fold action. rewrite run_task_calls. split; reflexivity.
  - intros Hfile. subst r. unfold compress, cbind.
    rewrite resolve_config_eq. cbv zeta. fold file. now rewrite Hfile.
Qed.

Lemma compress_ranks_flags_witness :
  Cli.result (Cli.get_action false true false false false) = inr "dryrun"
  /\ compress (sample_host None (fun _ => 0%Z)) "aquila" None true true sample_proc
     = (inl (TyperExit 1),
        showing sample_proc
          [on_stderr "Error: /repo/examples/aquila/conf/compress.yaml does not exist"]).
Proof.
  destruct (compress_ranks_flags (sample_host None (fun _ => 0%Z)) "aquila" None
              false true sample_proc) as (_ & Hact & _).
  destruct (compress_ranks_flags (sample_host None (fun _ => 0%Z)) "aquila" None
              true true sample_proc) as (_ & _ & _ & Hmissing).
  split; [apply Hact; cbv; lia | apply Hmissing; vm_compute; reflexivity].
Defined.

End TaskCommands.

(** ** The commands that start a process *)

Section ProcessCommands.
Import Py PosixPath Sys Pathlib Commands CliCommands.

Lemma run_process_eq (h : Host) (cmd : list string) (cwd : option string) (check : bool)
    (p : Proc) :
  run_process h cmd cwd check p
  = (match fst (subprocess_run h cmd cwd (pfs p)) with
     | inl e => inl (Foreign e)
     | inr code => inr (if check && negb (Z.eqb code 0) then inl code else inr code)
     end,
     after_process h p cmd cwd check).
Proof.
  unfold run_process, after_process. cbn [pfs shown argv calls].
  destruct (subprocess_run h cmd cwd (pfs p)) as [[e | code] f]; reflexivity.
Qed.

(** X13: the exit code of the install script is the exit code of
    [install]. Without the script under the working directory the command
    ends with [typer.Exit(1)] and starts no process. Otherwise it starts
    exactly one, the script with the platform, task and package manager
    followed by one option for each switch that is set, in a fixed order;
    it returns when the script returns 0 and raises [typer.Exit] with the
    script's return code otherwise. *)
Theorem install_exit_code (h : Host) (platform : Platform.t) (task : string)
    (pkg_mgr : PkgManager.t) (no_system no_dev no_base no_task only_pip debug : bool)
    (p : Proc) :
  let script := div (div (div (of_str (hcwd h)) "tools") "install") "install.sh" in
  let switches :=
    (if no_system then ["--no-system"] else [])
    ++ (if only_pip then ["--only-pip"] else [])
    ++ (if no_dev then ["--no-dev"] else [])
    ++ (if no_base then ["--no-base"] else [])
    ++ (if no_task then ["--no-task"] else [])
    ++ (if debug then ["--debug"] else []) in
  let cmd :=
    [ to_str script; "--platform"; Platform.value platform; "--task"; task;
      "--pkg-mgr"; PkgManager.value pkg_mgr ] ++ switches in
  let r := install h platform task pkg_mgr no_system no_dev no_base no_task only_pip debug p in
  (path_exists (pfs p) (locate (hcwd h) script) = false ->
   r = (inl (TyperExit 1),
        showing p [on_stderr ("Error: Install script not found: " +:+ to_str script)]))
  /\ (path_exists (pfs p) (locate (hcwd h) script) = true ->
      snd r = after_process h (showing p [on_stdout ("Running: " +:+ str_join " " cmd)])
                cmd None false
      /\ fst r = match fst (subprocess_run h cmd None (pfs p)) with
                 | inl e => inl (Foreign e)
                 | inr code => if Z.eqb code 0 then inr tt else inl (TyperExit code)
                 end)
  /\ length switches
     = Cli.count_set [no_system; only_pip; no_dev; no_base; no_task; debug].
Proof.
  intros script switches cmd r.
  split; [| split].
  - intros Hfile. subst r. unfold install, cbind, path_is_there.
    fold script. now rewrite Hfile.
  - intros Hfile. subst r. unfold install, cbind, path_is_there.
    fold script. rewrite Hfile. cbn [negb].
    assert (Hcmd : forall q,
               (let (s, p') := run_process h cmd None false q in
                match s with
                | inl f => (inl f, p')
                | inr a =>
                    (if negb (match a with inl c => c | inr c => c end =? 0)%Z
                     then exit (match a with inl c => c | inr c => c end)
                     else cret tt) p'
                end)
               = (match fst (subprocess_run h cmd None (pfs q)) with
                  | inl e => inl (Foreign e)
                  | inr code => if Z.eqb code 0 then inr tt else inl (TyperExit code)
                  end, after_process h q cmd None false)).
    { intros q. rewrite run_process_eq.
      destruct (fst (subprocess_run h cmd None (pfs q))) as [e | code]; [reflexivity |].
      cbn [andb]. destruct (Z.eqb code 0); reflexivity. }
    subst cmd switches.
    destruct no_system, only_pip, no_dev, no_base, no_task, debug;
      cbn [app] in *; rewrite echo_eq, Hcmd; split; reflexivity.
  - subst switches.
    destruct no_system, only_pip, no_dev, no_base, no_task, debug; reflexivity.
Qed.

Lemma install_exit_code_witness :
  install (sample_host None (fun _ => 3%Z)) Platform.cuda "train" PkgManager.uv
          false false false false false true sample_proc
  = (inl (TyperExit 1),
     showing sample_proc
       [on_stderr "Error: Install script not found: /repo/tools/install/install.sh"]).
Proof.
  destruct (install_exit_code (sample_host None (fun _ => 3%Z)) Platform.cuda "train"
              PkgManager.uv false false false false false true sample_proc)
    as (Hmissing & _).
  apply Hmissing. vm_compute. reflexivity.
Defined.

(** X14: [run_tests] passes the return code of the test script on, and
    drops empty options. Without the script the command ends with
    [typer.Exit(1)] and starts no process. Otherwise it starts the script
    once, with platform, device and type, then [--task], [--model] and
    [--list] with their values, each only when given and not empty; it
    returns when the script returns 0 and raises [typer.Exit] with the
    script's return code otherwise. *)
Theorem run_tests_exit_code (h : Host) (platform : Platform.t) (device test_type : string)
    (task model test_list : option string) (p : Proc) :
  let script :=
    div (div (div (div (of_str (hcwd h)) "tests") "test_utils") "runners") "run_tests.sh" in
  let options :=
    (if str_given task then ["--task"; str_of_opt task] else [])
    ++ (if str_given model then ["--model"; str_of_opt model] else [])
    ++ (if str_given test_list then ["--list"; str_of_opt test_list] else []) in
  let cmd :=
    [ to_str script; "--platform"; Platform.value platform; "--device"; device;
      "--type"; test_type ] ++ options in
  let r := run_tests h platform device test_type task model test_list p in
  (path_exists (pfs p) (locate (hcwd h) script) = false ->
   r = (inl (TyperExit 1),
        showing p [on_stderr ("Error: Test script not found: " +:+ to_str script)]))
  /\ (path_exists (pfs p) (locate (hcwd h) script) = true ->
      snd r = after_process h (showing p [on_stdout ("Running: " +:+ str_join " " cmd)])
                cmd None false
      /\ fst r = match fst (subprocess_run h cmd None (pfs p)) with
                 | inl e => inl (Foreign e)
                 | inr code => if Z.eqb code 0 then inr tt else inl (TyperExit code)
                 end)
  /\ r = run_tests h platform device test_type
                   (if str_given task then task else None)
                   (if str_given model then model else None)
                   (if str_given test_list then test_list else None) p.
Proof.
  intros script options cmd r.
  split; [| split].
  - intros Hfile. subst r. unfold run_tests, cbind, path_is_there.
    fold script. now rewrite Hfile.
  - intros Hfile. subst r. unfold run_tests, cbind, path_is_there.
    fold script. rewrite Hfile. cbn [negb].
    assert (Hcmd : forall q,
               (let (s, p') := run_process h cmd None false q in
                match s with
                | inl f => (inl f, p')
                | inr a =>
                    (if negb (match a with inl c => c | inr c => c end =? 0)%Z
                     then exit (match a with inl c => c | inr c => c end)
                     else cret tt) p'
                end)
               = (match fst (subprocess_run h cmd None (pfs q)) with
                  | inl e => inl (Foreign e)
                  | inr code => if Z.eqb code 0 then inr tt else inl (TyperExit code)
                  end, after_process h q cmd None false)).
    { intros q. rewrite run_process_eq.
      destruct (fst (subprocess_run h cmd None (pfs q))) as [e | code]; [reflexivity |].
      cbn [andb]. destruct (Z.eqb code 0); reflexivity. }
    subst cmd options.
    destruct (str_given task), (str_given model), (str_given test_list);
      cbn [app] in *; rewrite echo_eq, Hcmd; split; reflexivity.
  - subst r.
    destruct (str_given task) eqn:Ht, (str_given model) eqn:Hm,
      (str_given test_list) eqn:Hl;
      unfold run_tests; rewrite ?Ht, ?Hm, ?Hl; cbn [str_given]; reflexivity.
Qed.

Lemma run_tests_exit_code_witness :
  run_tests (sample_host None (fun _ => 3%Z)) Platform.cuda "gpu" "unit"
            (Some EmptyString) None None sample_proc
  = (inl (TyperExit 1),
     showing sample_proc
       [on_stderr "Error: Test script not found: /repo/tests/test_utils/runners/run_tests.sh"]).
Proof.
  destruct (run_tests_exit_code (sample_host None (fun _ => 3%Z)) Platform.cuda "gpu" "unit"
              (Some EmptyString) None None sample_proc) as (Hmissing & _).
  apply Hmissing. vm_compute. reflexivity.
Defined.

Ltac pull_case :=
  split_and!; try reflexivity; intros; try split; intros;
  repeat match goal with
         | H : _ /\ _ |- _ => destruct H
         end;
  simplify_eq/=; auto.

(** X15: [pull] stops at the first step that fails. The checkpoint
    directory ([model_download] under the working directory when none is
    given) exists before the first process starts; the three processes,
    docker pull, git clone and git lfs pull, are started in this order,
    each only when the one before returned 0; the command returns exactly
    when all three returned 0, and a step that returns another code ends
    it with [typer.Exit(1)], whatever the code. *)
Theorem pull_stops_at_first_failure (h : Host) (image ckpt : string)
    (ckpt_path : option Path) (p : Proc) :
  let dir :=
    match ckpt_path with
    | None => div (of_str (hcwd h)) "model_download"
    | Some q => q
    end in
  let fs1 :=
    if path_exists (pfs p) (locate (hcwd h) dir) then pfs p
    else makedirs (locate (hcwd h) dir) (pfs p) in
  let c1 := ["docker"; "pull"; image] in
  let c2 := ["git"; "clone"; ckpt; to_str dir] in
  let c3 := ["git"; "lfs"; "pull"] in
  let s1 := subprocess_run h c1 None fs1 in
  let s2 := subprocess_run h c2 None (snd s1) in
  let s3 := subprocess_run h c3 (Some (to_str dir)) (snd s2) in
  let r := pull h image ckpt ckpt_path p in
  path_exists fs1 (locate (hcwd h) dir) = true
  /\ calls (snd r)
     = calls p
       ++ CallProcess c1 None true
          :: (if succeeded (fst s1)
              then CallProcess c2 None true
                   :: (if succeeded (fst s2)
                       then [CallProcess c3 (Some (to_str dir)) true] else [])
              else [])
  /\ (fst r = inr tt <->
      succeeded (fst s1) = true /\ succeeded (fst s2) = true /\ succeeded (fst s3) = true)
  /\ (forall c, fst r = inl (TyperExit c) -> c = 1%Z)
  /\ (forall e, fst r = inl (Foreign e) ->
                fst s1 = inl e \/ fst s2 = inl e \/ fst s3 = inl e).
Proof.
  intros dir fs1 c1 c2 c3 s1 s2 s3 r.
  split.
  { subst fs1. destruct (path_exists (pfs p) (locate (hcwd h) dir)) eqn:Hd; [exact Hd |].
    unfold path_exists, makedirs. cbn [dirs].
    rewrite bool_decide_eq_true_2; [reflexivity |].
    rewrite !elem_of_union, elem_of_singleton. tauto. }
  pose (rest :=
      cbind (run_process h c1 None true)
        (fun pulled =>
           match pulled with
           | inl _ =>
               cbind (echo Stderr None ("Failed to pull Docker image: " +:+ image))
                     (fun _ => exit 1)
           | inr _ =>
               cbind (echo Stdout None
                           ("Successfully pulled Docker image: " +:+ image))
                 (fun _ =>
                    cbind (echo Stdout None
                                ("Cloning Git repository: " +:+ ckpt +:+ " into "
                                 +:+ to_str dir +:+ "..."))
                      (fun _ =>
                         cbind (run_process h c2 None true)
                           (fun cloned =>
                              match cloned with
                              | inl _ =>
                                  cbind (echo Stderr None
                                              ("Failed to clone Git repository: "
                                               +:+ ckpt))
                                        (fun _ => exit 1)
                              | inr _ =>
                                  cbind (echo Stdout None
                                              ("Successfully cloned Git repository: "
                                               +:+ ckpt))
                                    (fun _ =>
                                       cbind (echo Stdout None
                                                   "Pulling Git LFS files...")
                                         (fun _ =>
                                            cbind (run_process h c3
                                                     (Some (to_str dir)) true)
                                              (fun fetched =>
                                                 match fetched with
                                                 | inl _ =>
                                                     cbind
                                                       (echo Stderr None
                                                          "Failed to pull Git LFS files")
                                                       (fun _ => exit 1)
                                                 | inr _ =>
                                                     echo Stdout None
                                                       "Successfully pulled Git LFS files"
                                                 end)))
                              end)))
           end)).
  assert (Hr : exists q, pfs q = fs1 /\ calls q = calls p /\ r = rest q).
  { subst r rest fs1. unfold pull. fold dir. unfold cbind at 1. unfold path_is_there at 1.
    destruct (path_exists (pfs p) (locate (hcwd h) dir)) eqn:Hd; cbn [negb].
    - unfold cbind at 1. unfold cret at 1. unfold cbind at 1. rewrite echo_eq.
      eexists. split_and!; [| | reflexivity]; reflexivity.
    - unfold cbind at 1. unfold cbind at 1. unfold mkdir_parents at 1. rewrite echo_eq.
      unfold cbind at 1. rewrite echo_eq.
      eexists. split_and!; [| | reflexivity]; reflexivity. }
  destruct Hr as (q & Hfs & Hcalls & Hr). rewrite Hr. clear Hr. subst rest.
  destruct q as [qf qshown qargv qcalls]. cbn [pfs calls] in Hfs, Hcalls.
  subst qf qcalls.
  unfold cbind, exit, cfail. rewrite !run_process_eq. cbn [pfs]. fold s1.
  destruct (fst s1) as [e1 | code1] eqn:H1; cbn [succeeded andb].
  { cbn [fst snd after_process calls]. pull_case. }
  destruct (Z.eqb_spec code1 0) as [-> | Hc1]; cbn [negb].
  2:{ rewrite echo_eq. cbn [fst snd after_process showing calls]. pull_case. }
  rewrite !echo_eq, !run_process_eq.
  cbn [pfs showing after_process]. fold s1 s2.
  destruct (fst s2) as [e2 | code2] eqn:H2; cbn [succeeded andb].
  { cbn [fst snd after_process showing calls]. rewrite <- ?app_assoc. pull_case. }
  destruct (Z.eqb_spec code2 0) as [-> | Hc2]; cbn [negb].
  2:{ rewrite echo_eq. cbn [fst snd after_process showing calls].
      rewrite <- ?app_assoc. pull_case. }
  rewrite !echo_eq, !run_process_eq.
  cbn [pfs showing after_process]. fold s1 s2 s3.
  destruct (fst s3) as [e3 | code3] eqn:H3; cbn [succeeded andb].
  { cbn [fst snd after_process showing calls]. rewrite <- ?app_assoc. pull_case. }
  destruct (Z.eqb_spec code3 0) as [-> | Hc3]; cbn [negb].
  2:{ rewrite echo_eq. cbn [fst snd after_process showing calls].
      rewrite <- ?app_assoc. pull_case. }
  rewrite echo_eq. cbn [fst snd after_process showing calls].
  rewrite <- ?app_assoc. pull_case.
Qed.

Lemma pull_stops_at_first_failure_witness :
  fst (pull (sample_host None (fun _ => 0%Z)) "flagscale:latest"
            "https://example.org/aquila.git" None sample_proc)
  = inr tt.
Proof.
  destruct (pull_stops_at_first_failure (sample_host None (fun _ => 0%Z)) "flagscale:latest"
              "https://example.org/aquila.git" None sample_proc)
    as (_ & _ & Hdone & _).
  apply Hdone. repeat split; reflexivity.
Defined.

End ProcessCommands.

(** ** Configuration lookup and the remaining commands *)

Section ConfigLookup.
Import Py PosixPath Sys Pathlib Commands CliCommands Text.

Lemma split_on_nonempty (sep : ascii) (s : string) : split_on sep s <> [].
Proof.
  destruct s as [| c r]; cbn [split_on]; [discriminate |].
  destruct (Ascii.eqb c sep); [discriminate |].
  destruct (split_on sep r); discriminate.
Qed.

Lemma split_on_plain (sep : ascii) (s : string) :
  has_char sep s = false -> split_on sep s = [s].
Proof.
  induction s as [| c r IH]; cbn [has_char split_on]; [reflexivity |].
  intros H. apply orb_false_iff in H as [Hc Hr].
  rewrite Hc, (IH Hr). reflexivity.
Qed.

Lemma split_on_app (sep : ascii) (a b : string) :
  split_on sep (a +:+ String sep b) = split_on sep a ++ split_on sep b.
Proof.
  induction a as [| c r IH].
  - change (EmptyString +:+ String sep b) with (String sep b).
    cbn [split_on]. rewrite Ascii.eqb_refl. reflexivity.
  - change (String c r +:+ String sep b) with (String c (r +:+ String sep b)).
    cbn [split_on]. rewrite IH. destruct (Ascii.eqb c sep); [reflexivity |].
    pose proof (split_on_nonempty sep r) as Hr.
    destruct (split_on sep r); [contradiction | reflexivity].
Qed.

Lemma str_join_cons (sep a b : string) (l : list string) :
  str_join sep (a :: b :: l) = a +:+ sep +:+ str_join sep (b :: l).
Proof. reflexivity. Qed.

Lemma join_split_on (sep : ascii) (s : string) :
  str_join (String sep EmptyString) (split_on sep s) = s.
Proof.
  induction s as [| c r IH]; cbn [split_on]; [reflexivity |].
  pose proof (split_on_nonempty sep r) as Hr.
  destruct (Ascii.eqb_spec c sep) as [-> | Hc].
  - destruct (split_on sep r) as [| x t]; [contradiction |].
    rewrite str_join_cons, IH. reflexivity.
  - destruct (split_on sep r) as [| x t]; [contradiction |].
    destruct t as [| y t]; [cbn in IH |- *; congruence |].
    rewrite str_join_cons in IH |- *. rewrite <- IH. reflexivity.
Qed.

Lemma str_join_snoc (sep : string) (l : list string) (x : string) :
  l <> [] -> str_join sep (l ++ [x]) = str_join sep l +:+ sep +:+ x.
Proof.
  induction l as [| a l IH]; [contradiction |]. intros _.
  destruct l as [| b l]; [reflexivity |].
  change ((a :: b :: l) ++ [x]) with (a :: b :: (l ++ [x])).
  rewrite !str_join_cons.
  change (b :: l ++ [x]) with ((b :: l) ++ [x]).
  rewrite IH by discriminate.
  rewrite !append_assoc. reflexivity.
Qed.

Lemma has_char_app (c : ascii) (a b : string) :
  has_char c (a +:+ b) = has_char c a || has_char c b.
Proof.
  induction a as [| x a IH]; [reflexivity |].
  change (String x a +:+ b) with (String x (a +:+ b)).
  cbn [has_char]. rewrite IH, orb_assoc. reflexivity.
Qed.

Lemma of_str_plain (s : string) :
  s <> EmptyString -> s <> "." -> has_char "/" s = false ->
  of_str s = {| anchor := EmptyString; parts := [s] |}.
Proof.
  intros Hs Hdot Hslash. unfold of_str, split_slash, initial_slashes.
  rewrite (split_on_plain _ _ Hslash).
  destruct s as [| c r]; [contradiction |].
  cbn [has_char] in Hslash. apply orb_false_iff in Hslash as [Hc _].
  cbn [startswith]. rewrite Hc. cbn [andb List.filter].
  unfold component.
  apply String.eqb_neq in Hs, Hdot. rewrite Hs, Hdot. reflexivity.
Qed.

Lemma div_plain (p : Path) (s : string) :
  s <> EmptyString -> s <> "." -> has_char "/" s = false ->
  div p s = {| anchor := anchor p; parts := parts p ++ [s] |}.
Proof.
  intros Hs Hdot Hslash. unfold div. rewrite (of_str_plain s Hs Hdot Hslash). reflexivity.
Qed.

Lemma to_str_parts (p : Path) :
  parts p <> [] -> to_str p = anchor p +:+ str_join "/" (parts p).
Proof.
  unfold to_str. destruct (anchor p), (parts p); intros H; try reflexivity; contradiction.
Qed.

Lemma stem_suffix (p : Path) (t ext : string) :
  t <> EmptyString -> ext <> EmptyString -> has_char "." ext = false ->
  name p = t +:+ String "." ext ->
  stem p = t.
Proof.
  intros Ht Hext Hdot Hname. unfold stem. cbv zeta.
  rewrite Hname, split_on_app, (split_on_plain _ _ Hdot).
  rewrite removelast_last, List.last_last, join_split_on.
  pose proof (split_on_nonempty "." t) as Hne.
  destruct (split_on "." t) as [| a [| b l]]; [contradiction | |];
    destruct t, ext; try contradiction; reflexivity.
Qed.

(** X16: the configuration [resolve_config] finds by default. For a task
    name that is not empty and has no separator, the file looked up is
    [<task>.yaml] in a directory named [conf]; the name returned is the
    task and the directory returned is the one that, joined to
    [<name>.yaml] with one separator, gives back the file that was
    checked (as [_handle_config_error] joins them). When the file is
    missing the command ends with [typer.Exit(1)] after one line naming
    it. *)
Theorem default_config_names_its_file (h : Host) (model_name task : string) (p : Proc) :
  task <> EmptyString -> has_char "/" task = false ->
  let file := looked_up h model_name None task in
  let r := resolve_config h model_name None task p in
  name file = task +:+ ".yaml"
  /\ name (parent file) = "conf"
  /\ stem file = task
  /\ to_str (parent file) +:+ "/" +:+ task +:+ ".yaml" = to_str file
  /\ (path_exists (pfs p) (locate (hcwd h) file) = true ->
      r = (inr (to_str (parent file), task), p))
  /\ (path_exists (pfs p) (locate (hcwd h) file) = false ->
      r = (inl (TyperExit 1),
           showing p [on_stderr ("Error: " +:+ to_str file +:+ " does not exist")])).
Proof.
  intros Ht Hslash file r.
  set (base := div (div (of_str (hcwd h)) "examples") model_name).
  assert (Hyaml : task +:+ ".yaml" <> EmptyString /\ task +:+ ".yaml" <> "."
                  /\ has_char "/" (task +:+ ".yaml") = false).
  { rewrite has_char_app, Hslash.
    destruct task as [| c [| d t]]; [contradiction | |]; repeat split; discriminate. }
  destruct Hyaml as (Hy1 & Hy2 & Hy3).
  assert (Hfile : file = {| anchor := anchor base;
                            parts := (parts base ++ ["conf"]) ++ [task +:+ ".yaml"] |}).
  { subst file. unfold looked_up. fold base.
    rewrite (div_plain _ _ Hy1 Hy2 Hy3). reflexivity. }
  assert (Hname : name file = task +:+ ".yaml").
  { rewrite Hfile. unfold name. cbn [parts]. apply List.last_last. }
  assert (Hparent : parent file = {| anchor := anchor base; parts := parts base ++ ["conf"] |}).
  { rewrite Hfile. unfold parent. cbn [anchor parts]. rewrite removelast_last. reflexivity. }
  assert (Hstem : stem file = task).
  { apply (stem_suffix file task "yaml"); [exact Ht | discriminate | reflexivity | exact Hname]. }
  assert (Hjoin : to_str (parent file) +:+ "/" +:+ task +:+ ".yaml" = to_str file).
  { rewrite Hparent, Hfile.
    rewrite !to_str_parts; cbn [anchor parts].
    - rewrite (str_join_snoc "/" (parts base ++ ["conf"]) (task +:+ ".yaml")),
        append_assoc; [reflexivity |].
      destruct (parts base); discriminate.
    - destruct (parts base); discriminate.
    - destruct (parts base); discriminate. }
  assert (Hr : r = if path_exists (pfs p) (locate (hcwd h) file)
                   then (inr (to_str (parent file), task), p)
                   else (inl (TyperExit 1),
                         showing p [on_stderr ("Error: " +:+ to_str file
                                               +:+ " does not exist")])).
  { subst r. rewrite resolve_config_eq. cbv zeta. fold file. rewrite Hstem.
    reflexivity. }
  split; [exact Hname |]. split; [rewrite Hparent; unfold name; apply List.last_last |].
  split; [exact Hstem |]. split; [exact Hjoin |].
  split; intros Hthere; rewrite Hr, Hthere; reflexivity.
Qed.

Lemma default_config_names_its_file_witness :
  resolve_config (sample_host None (fun _ => 0%Z)) "aquila" None "train" sample_proc
  = (inr ("/repo/examples/aquila/conf", "train"), sample_proc).
Proof.
  destruct (default_config_names_its_file (sample_host None (fun _ => 0%Z)) "aquila" "train"
              sample_proc) as (_ & _ & _ & _ & Hfound & _);
    [discriminate | reflexivity |].
  rewrite Hfound; [reflexivity | vm_compute; reflexivity].
Defined.

Lemma run_task_no_extra (h : Host) (config_path config_name action : string)
    (overrides : option (list string)) :
  run_task h config_path config_name action
           (match overrides with
            | Some (x :: rest) => Some (x :: rest)
            | _ => None
            end)
  = run_task h config_path config_name action overrides.
Proof. destruct overrides as [[| x l] |]; reflexivity. Qed.

(** X17: [run_cmd] checks the directory, then the file. When the resolved
    directory is missing, or the directory is there and
    [<config_name>.yaml] in it is missing, the command ends with
    [typer.Exit(1)] after one line on standard error naming what is
    missing, and [run_main] is not called. When both are there, it ends as
    [run_task] does for the resolved directory, the name, the value of the
    action and the overrides, after one line on standard output. *)
Theorem run_cmd_checks_directory_then_file (h : Host) (config_path : Path)
    (config_name : string) (action : Action.t) (overrides : option (list string))
    (p : Proc) :
  let dir := resolve (hcwd h) config_path in
  let file := div dir (config_name +:+ ".yaml") in
  let r := run_cmd h config_path config_name action overrides p in
  (path_exists (pfs p) (locate (hcwd h) dir) = false ->
   r = (inl (TyperExit 1),
        showing p [on_stderr ("Error: Config path does not exist: " +:+ to_str dir)]))
  /\ (path_exists (pfs p) (locate (hcwd h) dir) = true ->
      path_exists (pfs p) (locate (hcwd h) file) = false ->
      r = (inl (TyperExit 1),
           showing p [on_stderr ("Error: Config file does not exist: " +:+ to_str file)]))
  /\ (path_exists (pfs p) (locate (hcwd h) dir) = true ->
      path_exists (pfs p) (locate (hcwd h) file) = true ->
      r = run_task h (to_str dir) config_name (Action.value action) overrides
            (showing p [on_stdout ("Running: flagscale --config-path=" +:+ to_str dir
                                   +:+ " --config-name=" +:+ config_name
                                   +:+ " action=" +:+ Action.value action)]))
  /\ (calls (snd r) = calls p
      \/ calls (snd r)
         = calls p ++ [CallMain (main_args (to_str dir) config_name (Action.value action)
                                           (default [] overrides))]
         /\ path_exists (pfs p) (locate (hcwd h) dir) = true
         /\ path_exists (pfs p) (locate (hcwd h) file) = true).
Proof.
  intros dir file r.
  assert (Hr : r = if path_exists (pfs p) (locate (hcwd h) dir)
                   then if path_exists (pfs p) (locate (hcwd h) file)
                        then run_task h (to_str dir) config_name (Action.value action)
                               overrides
                               (showing p
                                  [on_stdout ("Running: flagscale --config-path="
                                              +:+ to_str dir
                                              +:+ " --config-name=" +:+ config_name
                                              +:+ " action=" +:+ Action.value action)])
                        else (inl (TyperExit 1),
                              showing p [on_stderr ("Error: Config file does not exist: "
                                                    +:+ to_str file)])
                   else (inl (TyperExit 1),
                         showing p [on_stderr ("Error: Config path does not exist: "
                                               +:+ to_str dir)])).
  { subst r. unfold run_cmd. fold dir. cbv zeta. fold file.
    unfold cbind at 1. unfold path_is_there at 1.
    destruct (path_exists (pfs p) (locate (hcwd h) dir)); cbn [negb].
    2:{ unfold cbind, exit, cfail. rewrite echo_eq. reflexivity. }
    unfold cbind at 1. unfold path_is_there at 1.
    destruct (path_exists (pfs p) (locate (hcwd h) file)); cbn [negb].
    2:{ unfold cbind, exit, cfail. rewrite echo_eq. reflexivity. }
    unfold cbind at 1. rewrite echo_eq, run_task_no_extra. reflexivity. }
  split; [intros Hd; now rewrite Hr, Hd |].
  split; [intros Hd Hf; now rewrite Hr, Hd, Hf |].
  split; [intros Hd Hf; now rewrite Hr, Hd, Hf |].
  rewrite Hr.
  destruct (path_exists (pfs p) (locate (hcwd h) dir)); [| left; reflexivity].
  destruct (path_exists (pfs p) (locate (hcwd h) file)); [| left; reflexivity].
  right. rewrite run_task_calls. repeat split; reflexivity.
Qed.

Lemma run_cmd_checks_directory_then_file_witness :
  run_cmd (sample_host None (fun _ => 0%Z)) (of_str "examples/aquila/conf") "train"
          Action.dryrun None sample_proc
  = (inl (TyperExit 1),
     showing sample_proc
       [on_stderr "Error: Config path does not exist: /repo/examples/aquila/conf"]).
Proof.
  destruct (run_cmd_checks_directory_then_file (sample_host None (fun _ => 0%Z))
              (of_str "examples/aquila/conf") "train" Action.dryrun None sample_proc)
    as (Hmissing & _).
  rewrite Hmissing; vm_compute; reflexivity.
Defined.

(** X18: [inference] and [rl] offer three flags. With two or more of them
    set, both commands end with [typer.Exit(1)] without calling
    [run_main]. With at most one, the action is one of [run], [stop],
    [dryrun] and [test] (never [query] or [auto_tune]), and each command
    calls [run_main] exactly when its own configuration file is there,
    once, with that action and no extra argument. *)
Theorem inference_and_rl_actions (h : Host) (model : string) (config : option Path)
    (stop dryrun test : bool) (p : Proc) :
  let n := Cli.count_set [stop; dryrun; test] in
  let started (task : string) (action : string) : list call :=
    let file := looked_up h model config task in
    if path_exists (pfs p) (locate (hcwd h) file)
    then [CallMain (main_args (to_str (parent file)) (stem file) action [])]
    else [] in
  let ri := inference h model config stop dryrun test p in
  let rr := rl h model config stop dryrun test p in
  (2 <= n ->
   ri = rr /\ fst ri = inl (TyperExit 1) /\ calls (snd ri) = calls p
   /\ pfs (snd ri) = pfs p)
  /\ (n <= 1 ->
      exists action,
        In action ["run"; "stop"; "dryrun"; "test"]
        /\ Cli.result (Cli.get_action stop dryrun test false false) = inr action
        /\ calls (snd ri) = calls p ++ started "inference" action
        /\ calls (snd rr) = calls p ++ started "rl" action).
Proof.
  intros n started ri rr.
  assert (Hn : n = Cli.count_set [stop; dryrun; test; false; false]).
  { subst n. destruct stop, dryrun, test; reflexivity. }
  split.
  - intros Hmany. rewrite Hn in Hmany.
    subst ri rr. unfold inference, rl, cbind.
    rewrite (lift_get_action_many _ _ _ _ _ p Hmany). repeat split; reflexivity.
  - intros Hone. rewrite Hn in Hone.
    destruct (lift_get_action_one _ _ _ _ _ p Hone) as (action & Hact & Hlift).
    exists action. split.
    { clear - Hact. destruct stop, dryrun, test; cbv in Hact;
        try discriminate; injection Hact as <-; cbn; tauto. }
    split; [exact Hact |].
    subst ri rr started. unfold inference, rl, cbind. rewrite Hlift.
    rewrite !resolve_config_eq. cbv zeta.
    destruct (path_exists (pfs p) (locate (hcwd h) (looked_up h model config "inference")));
      destruct (path_exists (pfs p) (locate (hcwd h) (looked_up h model config "rl")));
      rewrite ?echo_eq, ?run_task_calls; cbn [fst snd calls showing default];
      rewrite ?app_nil_r; split; reflexivity.
Qed.

Lemma inference_and_rl_actions_witness :
  inference (sample_host None (fun _ => 0%Z)) "aquila" None true false true sample_proc
  = rl (sample_host None (fun _ => 0%Z)) "aquila" None true false true sample_proc.
Proof.
  destruct (inference_and_rl_actions (sample_host None (fun _ => 0%Z)) "aquila" None
              true false true sample_proc) as (Hmany & _).
  destruct Hmany as (Hsame & _); [cbv; lia | exact Hsame].
Defined.

End ConfigLookup.
